(** * YouTube Video Finder: a shallow embedding of [app.py]

    The script searches a video platform, keeps the videos whose duration
    lies in the window of 4 to 20 minutes, and asks a language model for the
    best match.  This file embeds the functions [parse_duration],
    [search_youtube], [filter_videos], [select_best_video] and the main
    workflow, and proves the properties of the specification about them;
    it then embeds [record_voice] and the lines that set the query, and
    proves further properties of the script as a whole.

    Modelling conventions.
    - Python [str] is [string]; the characters that matter (digits, signs,
      designators, white space) are ASCII.
    - Python [float] is idealised as an exact rational ([Q]): comparisons
      and sums are those of the real numbers.  A [timedelta] keeps whole
      microseconds, as in Python.
    - Exceptions are values of [exn] carried by [outcome]; a function that
      may raise returns an [outcome].  The text of a message is not
      modelled beyond a short label.
    - The collaborators (the YouTube client, the generative model and the
      part of [isodate] that reads the alternative format) are fields of an
      environment [env]; what the script sends them and what it shows to the
      user is recorded, in order, in a trace of [event]s. *)

From stdpp Require Import list.
From Stdlib Require Import ZArith QArith Qround Lqa String Ascii DecimalString Lia.
From Stdlib Require DecimalNat DecimalFacts.

Local Open Scope list_scope.
Local Open Scope string_scope.

(** ** Exceptions and outcomes *)

(** The subclasses of [Exception] that the script can meet. *)
Inductive exn : Type :=
| KeyError (key : string)          (* d[key] on a dict without [key] *)
| ValueError (msg : string)        (* int(...) on a string that is no integer *)
| ISO8601Error (msg : string)      (* isodate: a ValueError subclass *)
| OverflowError (msg : string)     (* timedelta out of range *)
| IndexError (msg : string)        (* l[i] outside the list *)
| OtherError (msg : string).       (* anything else a collaborator raises *)

Inductive outcome (A : Type) : Type :=
| Ok (a : A)
| Raise (e : exn).
Arguments Ok {A} a.
Arguments Raise {A} e.

Definition obind {A B} (x : outcome A) (f : A -> outcome B) : outcome B :=
  match x with
  | Ok a => f a
  | Raise e => Raise e
  end.

#[export] Instance outcome_ret : MRet outcome := @Ok.
#[export] Instance outcome_bind : MBind outcome := fun A B f x => obind x f.

(** [d[key]]: [None] stands for a dict without that key. *)
Definition getitem {A} (key : string) (field : option A) : outcome A :=
  match field with
  | Some a => Ok a
  | None => Raise (KeyError key)
  end.

(** ** Strings *)

Definition chr (n : nat) : string := String (ascii_of_nat n) EmptyString.

Definition is_digit (c : ascii) : bool :=
  (48 <=? nat_of_ascii c)%nat && (nat_of_ascii c <=? 57)%nat.

Definition digit_value (c : ascii) : Z := Z.of_nat (nat_of_ascii c) - 48.

(** The longest prefix matching [[0-9]*], and the rest. *)
Fixpoint digits (s : string) : list ascii * string :=
  match s with
  | String c s' =>
      if is_digit c then let (ds, r) := digits s' in (c :: ds, r)
      else ([], s)
  | EmptyString => ([], s)
  end.

Definition decimal_value (ds : list ascii) : Z :=
  fold_left (fun acc c => acc * 10 + digit_value c)%Z ds 0%Z.

Definition string_of_nat (n : nat) : string :=
  NilEmpty.string_of_uint (Nat.to_uint n).

(** [sep.join(l)] *)
Fixpoint join (sep : string) (l : list string) : string :=
  match l with
  | [] => ""
  | [x] => x
  | x :: rest => x ++ sep ++ join sep rest
  end.

(** ** Rounding *)

(** Rounding to the nearest integer, ties to even. *)
Definition round_half_even (x : Q) : Z :=
  let f := Qfloor x in
  match (x - inject_Z f ?= 1 # 2)%Q with
  | Lt => f
  | Gt => (f + 1)%Z
  | Eq => if Z.even f then f else (f + 1)%Z
  end.

(** ** The duration parser *)

Module Isodate.

(** The groups of [ISO8601_PERIOD_REGEX] after their conversion to numbers;
    a group that did not take part in the match reads as 0. *)
Record groups : Type := {
  sign : option ascii;
  years : Q; months : Q; weeks : Q; days : Q;
  hours : Q; minutes : Q; seconds : Q
}.

(** [[,.]] *)
Definition is_fraction_mark (c : ascii) : bool :=
  (c =? ",")%char || (c =? ".")%char.

(** [float(text.replace(",", "."))] for integer digits [ip] and fraction
    digits [fp]. *)
Definition decimal_number (ip fp : list ascii) : Q :=
  Qmake (decimal_value (ip ++ fp)%list) (Z.to_pos (10 ^ Z.of_nat (List.length fp))).

(** [[0-9]+([,.][0-9]+)?] at the head of [s]. *)
Definition number (s : string) : option (Q * string) :=
  let (ip, r) := digits s in
  match ip with
  | [] => None
  | _ =>
      match r with
      | String c r' =>
          if is_fraction_mark c then
            let (fp, r'') := digits r' in
            match fp with
            | [] => Some (inject_Z (decimal_value ip), r)
            | _ => Some (decimal_number ip fp, r'')
            end
          else Some (inject_Z (decimal_value ip), r)
      | EmptyString => Some (inject_Z (decimal_value ip), r)
      end
  end.

(** The optional group [([0-9]+([,.][0-9]+)?X)?] for the designator [X]:
    its value and the rest of the string. *)
Definition component (x : ascii) (s : string) : Q * string :=
  match number s with
  | Some (v, String c r) => if (c =? x)%char then (v, r) else (0, s)
  | _ => (0, s)
  end.

(** [\w] on ASCII. *)
Definition is_word (c : ascii) : bool :=
  let n := nat_of_ascii c in
  is_digit c || ((65 <=? n) && (n <=? 90))%nat
  || ((97 <=? n) && (n <=? 122))%nat || (n =? 95)%nat.

(** [(?!\b)] right after the [P]: the next character is a word character. *)
Definition not_at_boundary (s : string) : bool :=
  match s with
  | String c _ => is_word c
  | EmptyString => false
  end.

(** [$]: the end of the string, or just before a final newline. *)
Definition at_end (s : string) : bool :=
  match s with
  | EmptyString => true
  | String c EmptyString => (c =? "010")%char
  | _ => false
  end.

(** [ISO8601_PERIOD_REGEX.match(datestring)] and the conversion of the
    groups. *)
Definition period_match (datestring : string) : option groups :=
  let (sg, s) :=
    match datestring with
    | String c r =>
        if ((c =? "+") || (c =? "-"))%char then (Some c, r)
        else (None, datestring)
    | EmptyString => (None, datestring)
    end in
  match s with
  | String "P" s =>
      if not_at_boundary s then
        let (y, s) := component "Y" s in
        let (mo, s) := component "M" s in
        let (w, s) := component "W" s in
        let (d, s) := component "D" s in
        let '(h, mi, se, s) :=
          match s with
          | String "T" t =>
              let (h, t) := component "H" t in
              let (mi, t) := component "M" t in
              let (se, t) := component "S" t in
              (h, mi, se, t)
          | _ => (0, 0, 0, s)
          end in
        if at_end s then
          Some {| sign := sg; years := y; months := mo; weeks := w;
                  days := d; hours := h; minutes := mi; seconds := se |}
        else None
      else None
  | _ => None
  end.

(** [datetime.timedelta], as its total number of seconds. *)
Definition timedelta : Type := Q.

(** A timedelta holds between -999999999 days and 999999999 days,
    23:59:59.999999. *)
Definition in_range (t : Q) : bool :=
  Qle_bool (-(999999999 * 86400)) t && negb (Qle_bool (1000000000 * 86400) t).

Definition check_range (t : Q) : outcome timedelta :=
  if in_range t then Ok t
  else Raise (OverflowError "days out of range for timedelta").

(** A [timedelta] keeps whole microseconds: its constructor rounds the sum
    of its arguments to the nearest microsecond, ties to even. *)
Definition round_microseconds (t : Q) : Q :=
  inject_Z (round_half_even (t * 1000000)) / 1000000.

(** [timedelta(days=.., hours=.., minutes=.., seconds=.., weeks=..)] *)
Definition make_timedelta (d h mi se w : Q) : outcome timedelta :=
  check_range
    (round_microseconds (w * 604800 + d * 86400 + h * 3600 + mi * 60 + se)).

(** What [parse_duration] returns: a [timedelta] when there are neither
    years nor months, else a [Duration], which keeps them beside a
    [timedelta].  One record stands for both: a [timedelta] is the record
    whose years and months are 0. *)
Record duration : Type := {
  dur_years : Q;
  dur_months : Q;
  tdelta : timedelta
}.

(** [datetime.datetime] fields, as the alternative format reads them. *)
Record datetime : Type := {
  dt_year : Z; dt_month : Z; dt_day : Z;
  dt_hour : Z; dt_minute : Z; dt_second : Z; dt_microsecond : Z
}.

Definition startswith_P (s : string) : bool :=
  match s with
  | String "P" _ => true
  | _ => false
  end.

Definition tail (s : string) : string :=
  match s with
  | String _ r => r
  | EmptyString => EmptyString
  end.

(** [groups["sign"] == "-"] *)
Definition is_minus (sg : option ascii) : bool :=
  match sg with
  | Some c => (c =? "-")%char
  | None => false
  end.

(** The number of [T]s in a string. *)
Fixpoint count_T (s : string) : nat :=
  match s with
  | String c r => (if (c =? "T")%char then 1 else 0) + count_T r
  | EmptyString => 0
  end.

(** What [parse_datetime] asks of its argument before it reads anything:
    [split("T")] gives two parts, and the first one starts as a date, with
    two digits. *)
Definition datetime_shape (s : string) : bool :=
  (count_T s =? 1)%nat
  && match s with
     | String a (String b _) => is_digit a && is_digit b
     | _ => false
     end.

Section ParseDuration.
(** [isodate.parse_datetime] on the strings of the shape above, where it
    reads the alternative format [PYYYY-MM-DDThh:mm:ss]; this reading is
    not modelled. *)
Variable parse_datetime : string -> outcome datetime.

(** [parse_datetime(datetimestring)]: an error on a string that has not
    the shape of a date and a time. *)
Definition read_datetime (datetimestring : string) : outcome datetime :=
  if datetime_shape datetimestring then parse_datetime datetimestring
  else Raise (ISO8601Error "Unrecognised ISO 8601 date format").

(** [isodate.parse_duration(datestring)] *)
Definition parse_duration (datestring : string) : outcome duration :=
  match period_match datestring with
  | None =>
      if startswith_P datestring then
        durdt ← read_datetime (tail datestring);
        td ← check_range
                 (inject_Z (dt_day durdt) * 86400
                  + inject_Z (dt_hour durdt) * 3600
                  + inject_Z (dt_minute durdt) * 60
                  + inject_Z (dt_second durdt)
                  + inject_Z (dt_microsecond durdt) / 1000000);
        Ok {| dur_years := inject_Z (dt_year durdt);
              dur_months := inject_Z (dt_month durdt);
              tdelta := td |}
      else Raise (ISO8601Error "Unable to parse duration string")
  | Some g =>
      ret ← make_timedelta (days g) (hours g) (minutes g) (seconds g)
              (weeks g);
      ret ← (if is_minus (sign g) then check_range (0 - ret) else Ok ret);
      Ok {| dur_years := years g; dur_months := months g; tdelta := ret |}
  end.
End ParseDuration.

(** [d.total_seconds()]; a [Duration] forwards it to its [timedelta]. *)
Definition total_seconds (d : duration) : Q := tdelta d.

End Isodate.

(** ** Python helpers *)

(** [str.isspace] on ASCII: tab to carriage return, the four separators
    and the space. *)
Definition is_space (c : ascii) : bool :=
  let n := nat_of_ascii c in
  ((9 <=? n) && (n <=? 13))%nat || ((28 <=? n) && (n <=? 32))%nat.

Fixpoint lstrip (s : string) : string :=
  match s with
  | String c r => if is_space c then lstrip r else s
  | EmptyString => EmptyString
  end.

Fixpoint rstrip (s : string) : string :=
  match s with
  | String c r =>
      let r' := rstrip r in
      if is_space c && (if r' is EmptyString then true else false)
      then EmptyString else String c r'
  | EmptyString => EmptyString
  end.

(** [s.strip()] *)
Definition strip (s : string) : string := rstrip (lstrip s).

(** The digits of an integer literal: [digit (["_"] digit)*].  [acc] is the
    value read so far and [after_digit] tells whether the last character
    read was a digit. *)
Fixpoint int_digits (s : string) (acc : Z) (after_digit : bool) : option Z :=
  match s with
  | EmptyString => if after_digit then Some acc else None
  | String c r =>
      if is_digit c then int_digits r (acc * 10 + digit_value c)%Z true
      else if (c =? "_")%char && after_digit then
        match r with
        | String d _ => if is_digit d then int_digits r acc false else None
        | EmptyString => None
        end
      else None
  end.

(** [int(s)]: white space around, an optional sign, decimal digits.  The
    digits and the white space outside ASCII, and the limit that recent
    interpreters put on the number of digits, are not modelled. *)
Definition py_int (s : string) : outcome Z :=
  let s := strip s in
  let (negative, body) :=
    match s with
    | String "-" r => (true, r)
    | String "+" r => (false, r)
    | _ => (false, s)
    end in
  match int_digits body 0%Z false with
  | Some n => Ok (if negative then - n else n)%Z
  | None => Raise (ValueError "invalid literal for int() with base 10")
  end.

(** [l[i]] for an integer [i]: a negative index counts from the end. *)
Definition subscript {A} (l : list A) (i : Z) : outcome A :=
  let j := (if i <? 0 then i + Z.of_nat (List.length l) else i)%Z in
  if (j <? 0)%Z then Raise (IndexError "list index out of range")
  else match l !! Z.to_nat j with
       | Some a => Ok a
       | None => Raise (IndexError "list index out of range")
       end.

(** [round(x, ndigits)] *)
Definition py_round (x : Q) (ndigits : nat) : Q :=
  let scale := inject_Z (10 ^ Z.of_nat ndigits) in
  (inject_Z (round_half_even (x * scale)) / scale)%Q.

(** ** Data model *)

(** A Video Record: the dict that [filter_videos] builds. *)
Record video : Type := {
  title : string;
  url : string;
  duration : Q
}.

(** An item of the [videos().list] response; [None] is an absent key. *)
Record content_details : Type := { cd_duration : option string }.
Record snippet : Type := { sn_title : option string }.
Record video_item : Type := {
  item_id : option string;
  item_contentDetails : option content_details;
  item_snippet : option snippet
}.
Record videos_response : Type := { vr_items : option (list video_item) }.

(** An item of the [search().list] response. *)
Record search_id : Type := { videoId : option string }.
Record search_item : Type := { si_id : option search_id }.
Record search_response : Type := { sr_items : option (list search_item) }.

Record search_request : Type := {
  rq_q : string;
  rq_part : string;
  rq_type : string;
  rq_order : string;
  rq_videoDuration : string;
  rq_maxResults : nat;
  rq_publishedAfter : string
}.

(** ** Collaborators and effects *)

Record env : Type := {
  (** [youtube.search().list(...).execute()] *)
  youtube_search : search_request -> outcome search_response;
  (** [youtube.videos().list(part=.., id=..).execute()] *)
  youtube_videos : string -> string -> outcome videos_response;
  (** [genai.GenerativeModel(name).generate_content(prompt).text] *)
  generate_content : string -> string -> outcome string;
  (** [(datetime.utcnow() - timedelta(days=14)).isoformat("T")] *)
  two_weeks_ago : string;
  (** [isodate.parse_datetime] *)
  parse_datetime : string -> outcome Isodate.datetime
}.

(** The pieces of an f-string shown to the user: text, a float, an
    exception. *)
Inductive fpart : Type :=
| Txt (s : string)
| Num (x : Q)
| Exc (e : exn).

Inductive event : Type :=
| YoutubeSearch (req : search_request)
| YoutubeVideos (part id : string)
| GenerateContent (model prompt : string)
| StSpinner (text : string)
| StWarning (text : string)
| StError (text : list fpart)
| StSubheader (text : string)
| StMarkdown (text : list fpart)
| StSuccess (text : list fpart).

(** A computation reads the environment, and gives a value or raises, with
    the events it produced on the way. *)
Definition M (A : Type) : Type := env -> outcome A * list event.

#[export] Instance M_ret : MRet M := fun A a _ => (Ok a, []).
#[export] Instance M_bind : MBind M := fun A B f m E =>
  match m E with
  | (Ok a, evs) => let (r, evs') := f a E in (r, (evs ++ evs')%list)
  | (Raise e, evs) => (Raise e, evs)
  end.

Definition emit (ev : event) : M unit := fun _ => (Ok tt, [ev]).

Definition lift {A} (o : outcome A) : M A := fun _ => (o, []).

(** [try: body  except: handler] *)
Definition try_except {A} (body : M A) (handler : exn -> M A) : M A :=
  fun E =>
    match body E with
    | (Ok a, evs) => (Ok a, evs)
    | (Raise e, evs) => let (r, evs') := handler e E in (r, (evs ++ evs')%list)
    end.

(** [for x in l: body] *)
Fixpoint for_each {A} (l : list A) (body : A -> M unit) : M unit :=
  match l with
  | [] => mret tt
  | x :: rest => body x;; for_each rest body
  end.

(** [enumerate(l)] *)
Definition enumerate {A} (l : list A) : list (nat * A) := imap pair l.

Definition search_list (req : search_request) : M search_response :=
  fun E => (youtube_search E req, [YoutubeSearch req]).

Definition videos_list (part id : string) : M videos_response :=
  fun E => (youtube_videos E part id, [YoutubeVideos part id]).

Definition utcnow_minus_14_days : M string :=
  fun E => (Ok (two_weeks_ago E), []).

Definition model_text (model prompt : string) : M string :=
  fun E => (generate_content E model prompt, [GenerateContent model prompt]).

(** ** The functions of the script *)

Definition dquote : string := chr 34.
Definition newline : string := chr 10.

(** The keyword arguments of [youtube.search().list]. *)
Definition search_params (query after : string) : search_request :=
  {| rq_q := query; rq_part := "snippet"; rq_type := "video";
     rq_order := "relevance"; rq_videoDuration := "medium";
     rq_maxResults := 20; rq_publishedAfter := after |}.

(** [search_youtube(query)] *)
Definition search_youtube (query : string) : M (list string) :=
  if query is EmptyString then mret []
  else
    try_except
      (stamp ← utcnow_minus_14_days;
       let after := stamp ++ "Z" in
       results ← search_list (search_params query after);
       lift (mapM (fun item =>
                     id ← getitem "id" (si_id item);
                     getitem "videoId" (videoId id))
                  (default [] (sr_items results))))
      (fun e => emit (StError [Txt "API Error: "; Exc e]);; mret []).

(** [parse_duration(iso_duration)], in minutes. *)
Definition parse_duration (E : env) (iso_duration : string) : outcome Q :=
  d ← Isodate.parse_duration (parse_datetime E) iso_duration;
  Ok (Isodate.total_seconds d / 60)%Q.

(** The body of the loop of [filter_videos] for one item: the record to
    append, if any. *)
Definition filter_item (E : env) (item : video_item) : outcome (option video) :=
  cd ← getitem "contentDetails" (item_contentDetails item);
  iso ← getitem "duration" (cd_duration cd);
  dur ← parse_duration E iso;
  if Qle_bool 4 dur && Qle_bool dur 20 then
    sn ← getitem "snippet" (item_snippet item);
    t ← getitem "title" (sn_title sn);
    id ← getitem "id" (item_id item);
    Ok (Some {| title := t;
                url := "https://www.youtube.com/watch?v=" ++ id;
                duration := py_round dur 2 |})
  else Ok None.

(** The loop of [filter_videos]: [filtered] is the list the loop appends
    to; it is returned with the way the loop ended. *)
Fixpoint filter_loop (E : env) (items : list video_item)
    (filtered : list video) : outcome unit * list video :=
  match items with
  | [] => (Ok tt, filtered)
  | item :: rest =>
      match filter_item E item with
      | Ok (Some r) => filter_loop E rest (filtered ++ [r])%list
      | Ok None => filter_loop E rest filtered
      | Raise e => (Raise e, filtered)
      end
  end.

(** [filter_videos(ids)] *)
Definition filter_videos (ids : list string) : M (list video) :=
  if ids is [] then mret []
  else fun E =>
    let filtered := [] in
    (* try *)
    let '(r, filtered, evs) :=
      match videos_list "contentDetails,snippet" (join "," ids) E with
      | (Ok details, evs) =>
          let (r, filtered) :=
            filter_loop E (default [] (vr_items details)) filtered in
          (r, filtered, evs)
      | (Raise e, evs) => (Raise e, filtered, evs)
      end in
    (* except Exception as e *)
    let evs :=
      match r with
      | Ok _ => evs
      | Raise e => (evs ++ [StError [Txt "Duration Filter Error: "; Exc e]])%list
      end in
    (Ok filtered, evs).

(** The prompt sent to the model. *)
Definition prompt_of (videos : list video) (query : string) : string :=
  "You're an expert YouTube content curator. Pick the most relevant video to: "
  ++ dquote ++ query ++ dquote ++ newline
  ++ "Videos:" ++ newline
  ++ join (chr 10)
       (map (fun '(i, v) => string_of_nat (i + 1) ++ ". " ++ title v)
            (enumerate videos)) ++ newline
  ++ "Reply ONLY with the number. If none match, reply "
  ++ dquote ++ "0" ++ dquote ++ ".".

(** [select_best_video(videos, query)] *)
Definition select_best_video (videos : list video) (query : string)
    : M (option video) :=
  if (if videos is [] then true else false)
     || (if query is EmptyString then true else false)
  then
    if videos is [] then mret None
    else v ← lift (subscript videos 0); mret (Some v)
  else
    let prompt := prompt_of videos query in
    try_except
      (text ← model_text "gemini-1.5-flash-latest" prompt;
       let choice := strip text in
       n ← lift (py_int choice);
       let idx := (n - 1)%Z in
       v ← lift (if (0 <=? idx)%Z && (idx <? Z.of_nat (List.length videos))%Z
                 then subscript videos idx else subscript videos 0);
       mret (Some v))
      (fun _ => v ← lift (subscript videos 0); mret (Some v)).

(** The Displaying step of the main workflow. *)
Definition display_results (filtered : list video) : M unit :=
  emit (StSubheader "📄 Filtered Results:");;
  for_each (enumerate (take 5 filtered))
    (fun '(i, v) =>
       emit (StMarkdown
               [Txt (string_of_nat (i + 1) ++ ". **" ++ title v ++ "** (");
                Num (duration v);
                Txt (" min) - [Watch](" ++ url v ++ ")")]));;
  if (5 <? List.length filtered)%nat then
    emit (StMarkdown
            [Txt ("...and " ++ string_of_nat (List.length filtered - 5)
                  ++ " more.")])
  else mret tt.

(** The main workflow, run with the query typed or spoken. *)
Definition main_workflow (query : string) : M unit :=
  if query is EmptyString then mret tt
  else
    emit (StSpinner "🔍 Searching YouTube...");;
    ids ← search_youtube query;
    if ids is [] then emit (StWarning "No videos found.")
    else
      emit (StSpinner "⏱️ Filtering by duration (4–20 min)...");;
      filtered ← filter_videos ids;
      if filtered is [] then emit (StWarning "No videos in the 4–20 min range.")
      else
        display_results filtered;;
        emit (StSpinner "🤖 Finding the best video...");;
        best ← select_best_video filtered query;
        match best with
        | Some best =>
            emit (StSubheader "🏆 Top Pick:");;
            emit (StSuccess [Txt ("**" ++ title best ++ "** (");
                             Num (duration best); Txt " min)"]);;
            emit (StMarkdown
                    [Txt ("[📺 Watch on YouTube](" ++ url best ++ ")")])
        | None => mret tt
        end.

(** ** Voice input and the start of the script *)

(** What the speech recognition library raises, as the handlers of
    [record_voice] tell it apart. *)
Inductive voice_exn : Type :=
| WaitTimeoutError
| UnknownValueError
| OtherException (e : exn).

Inductive voice_result (A : Type) : Type :=
| Got (a : A)
| Failed (e : voice_exn).
Arguments Got {A} a.
Arguments Failed {A} e.

(** The audio data that [listen] returns. *)
Definition audio : Type := string.

(** The speech collaborators: each step gives its result or raises. *)
Record voice_env : Type := {
  (** the outcome of [import speech_recognition] *)
  voice_enabled : bool;
  (** [sr.Recognizer()] and the entry of [with sr.Microphone() as source] *)
  open_microphone : voice_result unit;
  (** [r.adjust_for_ambient_noise(source, duration=0.5)] *)
  adjust_for_ambient_noise : voice_result unit;
  (** [r.listen(source, timeout=5, phrase_time_limit=10)] *)
  listen : voice_result audio;
  (** [r.recognize_google(audio)] *)
  recognize_google : audio -> voice_result string
}.

(** The events of a whole run: what the functions above produce, the
    [st.info] message and the use of the microphone and the recogniser. *)
Inductive run_event : Type :=
| Ev (e : event)
| StInfo (text : string)
| MicOpen
| MicAdjust (duration : Q)
| MicListen (timeout phrase_time_limit : nat)
| MicClose
| Recognize (a : audio).

(** The body of [with sr.Microphone() as source]. *)
Definition capture (V : voice_env) : voice_result audio * list run_event :=
  let info := StInfo "🎙 Speak now... (auto-stops after a pause)" in
  match adjust_for_ambient_noise V with
  | Failed e => (Failed e, [info; MicAdjust 0.5])
  | Got _ => (listen V, [info; MicAdjust 0.5; MicListen 5 10])
  end.

(** The [try] block of [record_voice]: the microphone is released when the
    [with] block is left, by its end or by an exception. *)
Definition transcribe (V : voice_env) : voice_result string * list run_event :=
  match open_microphone V with
  | Failed e => (Failed e, [MicOpen])
  | Got _ =>
      let (r, evs) := capture V in
      match r with
      | Failed e => (Failed e, (MicOpen :: evs ++ [MicClose])%list)
      | Got a =>
          (recognize_google V a,
           (MicOpen :: evs ++ [MicClose; Recognize a])%list)
      end
  end.

(** [record_voice()] *)
Definition record_voice (V : voice_env) : string * list run_event :=
  if negb (voice_enabled V) then
    ("", [Ev (StWarning
                "SpeechRecognition is not available. Please use text input.")])
  else
    let (r, evs) := transcribe V in
    match r with
    | Got query => (query, evs)
    | Failed WaitTimeoutError =>
        ("", (evs ++ [Ev (StWarning "⏱ No speech detected within timeout.")])%list)
    | Failed UnknownValueError =>
        ("", (evs ++ [Ev (StWarning "❓ Could not understand audio.")])%list)
    | Failed (OtherException e) =>
        ("", (evs ++ [Ev (StError [Txt "⚠️ Error during voice recognition: ";
                                   Exc e])])%list)
    end.

(** The input widgets: the mode chosen, the text typed (read in Text mode)
    and whether the recording button was pressed (read in Voice mode). *)
Inductive input_mode : Type := TextMode | VoiceMode.

Record widgets : Type := {
  mode : input_mode;
  text_input : string;
  button : bool
}.

(** The lines of the script that set [query]. *)
Definition acquire_query (U : widgets) (V : voice_env)
    : string * list run_event :=
  let query := if mode U is TextMode then text_input U else "" in
  if (if mode U is VoiceMode then true else false) && button U then
    let (query, evs) := record_voice V in
    (query,
     (Ev (StSpinner "🎧 Listening...") :: evs
      ++ [if query is EmptyString
          then Ev (StWarning "No valid voice input detected.")
          else Ev (StSuccess [Txt ("🗣️ You said: " ++ dquote ++ query
                                    ++ dquote)])])%list)
  else (query, []).

(** The script from the input widgets to the end of the main workflow,
    once its start-up lines have run (see [streamlit_app] below).  The
    page title and the side bar, which show fixed texts, are left out. *)
Definition script (U : widgets) (V : voice_env) (E : env)
    : outcome unit * list run_event :=
  let (query, evs) := acquire_query U V in
  let (r, evs') := main_workflow query E in
  (r, (evs ++ map Ev evs')%list).

(** The start-up lines of the script: the imports at its head (the one of
    [speech_recognition] among them, not guarded there) and the set-up of
    the two clients from the secrets.  Each goes through or raises. *)
Record startup : Type := {
  imports : outcome unit;
  configure_clients : outcome unit
}.

(** After the imports at the head, the guarded import of
    [speech_recognition] finds the module loaded: [voice_enabled] is
    true. *)
Definition after_imports (V : voice_env) : voice_env :=
  {| voice_enabled := true;
     open_microphone := open_microphone V;
     adjust_for_ambient_noise := adjust_for_ambient_noise V;
     listen := listen V;
     recognize_google := recognize_google V |}.

(** The script from its first line: an exception of the start-up lines
    ends it before anything is shown. *)
Definition streamlit_app (S : startup) (U : widgets) (V : voice_env)
    (E : env) : outcome unit * list run_event :=
  match imports S with
  | Raise e => (Raise e, [])
  | Ok _ =>
      match configure_clients S with
      | Raise e => (Raise e, [])
      | Ok _ => script U (after_imports V) E
      end
  end.

(** ** Notions used in the statements *)

(** The window test of the loop, as inequalities. *)
Definition in_window (x : Q) : Prop := (4 <= x)%Q /\ (x <= 20)%Q.

(** The items of the metadata response for [ids], when there is one. *)
Definition response_items (E : env) (ids : list string) : list video_item :=
  match youtube_videos E "contentDetails,snippet" (join "," ids) with
  | Ok details => default [] (vr_items details)
  | Raise _ => []
  end.

Definition model_name : string := "gemini-1.5-flash-latest".

(** What the model's answer makes of the choice: the video at the index
    read from the reply when there is one in range, else the first. *)
Definition choice_of (E : env) (v : video) (vs : list video)
    (query : string) : video :=
  let videos := v :: vs in
  match generate_content E model_name (prompt_of videos query) with
  | Ok text =>
      match py_int (strip text) with
      | Ok n =>
          if (0 <=? n - 1)%Z && (n - 1 <? Z.of_nat (List.length videos))%Z
          then default v (videos !! Z.to_nat (n - 1))
          else v
      | Raise _ => v
      end
  | Raise _ => v
  end.

(** The seconds that the groups of a match add up to. *)
Definition seconds_of (g : Isodate.groups) : Q :=
  Isodate.weeks g * 604800 + Isodate.days g * 86400
  + Isodate.hours g * 3600 + Isodate.minutes g * 60 + Isodate.seconds g.

(** The formula of the specification, on the groups of a match. *)
Definition hms_minutes (g : Isodate.groups) : Q :=
  Isodate.hours g * 60 + Isodate.minutes g + Isodate.seconds g / 60.

(** The line shown for the record [v] at position [i] (from 0). *)
Definition result_line (i : nat) (v : video) : event :=
  StMarkdown
    [Txt (string_of_nat (i + 1) ++ ". **" ++ title v ++ "** (");
     Num (duration v);
     Txt (" min) - [Watch](" ++ url v ++ ")")].

(** The line that counts the records not shown. *)
Definition more_line (n : nat) : event :=
  StMarkdown [Txt ("...and " ++ string_of_nat n ++ " more.")].

(** What the workflow shows for the top pick. *)
Definition top_pick (best : video) : list event :=
  [StSubheader "🏆 Top Pick:";
   StSuccess [Txt ("**" ++ title best ++ "** ("); Num (duration best);
              Txt " min)"];
   StMarkdown [Txt ("[📺 Watch on YouTube](" ++ url best ++ ")")]].

(** The identifier that the comprehension of [search_youtube] reads from
    an item. *)
Definition video_id_of (item : search_item) : outcome string :=
  id ← getitem "id" (si_id item);
  getitem "videoId" (videoId id).

(** The request that [search_youtube] sends for [query]. *)
Definition request_of (E : env) (query : string) : search_request :=
  search_params query (two_weeks_ago E ++ "Z").

(** The calls of collaborators among the events of a trace. *)
Definition is_api_call (ev : event) : bool :=
  match ev with
  | YoutubeSearch _ | YoutubeVideos _ _ | GenerateContent _ _ => true
  | _ => false
  end.

Definition api_calls (evs : list event) : list event :=
  List.filter is_api_call evs.

(** The messages ([st.warning], [st.error]) among the events of a run. *)
Definition is_alert (ev : run_event) : bool :=
  match ev with
  | Ev (StWarning _) | Ev (StError _) => true
  | _ => false
  end.

(** The calls of collaborators among the events of a run. *)
Definition calls_api (ev : run_event) : bool :=
  match ev with
  | Ev c => is_api_call c
  | _ => false
  end.

(** The events that use the microphone or the recogniser. *)
Definition uses_voice (ev : run_event) : bool :=
  match ev with
  | MicOpen | MicAdjust _ | MicListen _ _ | MicClose | Recognize _ => true
  | _ => false
  end.

(** The message that [record_voice] shows for an exception. *)
Definition voice_alert (e : voice_exn) : run_event :=
  match e with
  | WaitTimeoutError => Ev (StWarning "⏱ No speech detected within timeout.")
  | UnknownValueError => Ev (StWarning "❓ Could not understand audio.")
  | OtherException e =>
      Ev (StError [Txt "⚠️ Error during voice recognition: "; Exc e])
  end.

(** The events of a capture that went as far as listening. *)
Definition capture_events (a : audio) : list run_event :=
  [MicOpen; StInfo "🎙 Speak now... (auto-stops after a pause)";
   MicAdjust 0.5; MicListen 5 10; MicClose; Recognize a].

(** The step of the capture that raises [e], the steps before it having
    succeeded. *)
Definition voice_failure (V : voice_env) (e : voice_exn) : Prop :=
  open_microphone V = Failed e
  \/ (open_microphone V = Got tt /\ adjust_for_ambient_noise V = Failed e)
  \/ (open_microphone V = Got tt /\ adjust_for_ambient_noise V = Got tt
      /\ listen V = Failed e)
  \/ (exists a,
        open_microphone V = Got tt /\ adjust_for_ambient_noise V = Got tt
        /\ listen V = Got a /\ recognize_google V a = Failed e).

(** The lines of the prompt that list the videos. *)
Definition prompt_lines (videos : list video) : list string :=
  imap (fun i v => string_of_nat (i + 1) ++ ". " ++ title v) videos.

(** A duration string with its three time components. *)
Definition iso_hms (h m s : nat) : string :=
  "PT" ++ string_of_nat h ++ "H" ++ string_of_nat m ++ "M"
  ++ string_of_nat s ++ "S".

(** White space only. *)
Fixpoint all_space (s : string) : bool :=
  match s with
  | String c r => is_space c && all_space r
  | EmptyString => true
  end.

(** ** Sample environments *)

Definition item_of (id iso t : string) : video_item :=
  {| item_id := Some id;
     item_contentDetails := Some {| cd_duration := Some iso |};
     item_snippet := Some {| sn_title := Some t |} |}.

Definition sample_items : list video_item :=
  [item_of "a" "PT5M30S" "A"; item_of "b" "PT25M" "B";
   item_of "c" "PT4M" "C"; item_of "d" "oops" "D";
   item_of "e" "PT10M" "E"].

Definition sample_env (reply : outcome string) : env :=
  {| youtube_search := fun _ =>
       Ok {| sr_items := Some [ {| si_id := Some {| videoId := Some "a" |} |} ] |};
     youtube_videos := fun _ _ => Ok {| vr_items := Some sample_items |};
     generate_content := fun _ _ => reply;
     two_weeks_ago := "2024-01-01T00:00:00";
     parse_datetime := fun _ => Raise (ISO8601Error "Unrecognised ISO 8601 date format") |}.

Definition sample_videos : list video :=
  [{| title := "A"; url := "https://www.youtube.com/watch?v=a";
      duration := 550 # 100 |};
   {| title := "C"; url := "https://www.youtube.com/watch?v=c";
      duration := 400 # 100 |}].

Definition failing_env : env :=
  {| youtube_search := fun _ => Raise (OtherError "HttpError 403");
     youtube_videos := fun _ _ => Raise (OtherError "HttpError 403");
     generate_content := fun _ _ => Raise (OtherError "ResourceExhausted");
     two_weeks_ago := "2024-01-01T00:00:00";
     parse_datetime := fun _ => Raise (ISO8601Error "Unrecognised ISO 8601 date format") |}.

Definition sample_entry (id : string) : search_item :=
  {| si_id := Some {| videoId := Some id |} |}.

Definition sample_search_env (items : list search_item) : env :=
  {| youtube_search := fun _ => Ok {| sr_items := Some items |};
     youtube_videos := fun _ _ => Ok {| vr_items := Some (take 3 sample_items) |};
     generate_content := fun _ _ => Ok "1";
     two_weeks_ago := "2024-01-01T00:00:00";
     parse_datetime := fun _ => Raise (ISO8601Error "Unrecognised ISO 8601 date format") |}.

Definition sample_voice (heard : voice_result audio)
    (said : voice_result string) : voice_env :=
  {| voice_enabled := true;
     open_microphone := Got tt;
     adjust_for_ambient_noise := Got tt;
     listen := heard;
     recognize_google := fun _ => said |}.

(** A video as the metadata API describes it: identifier, title and
    length in hours, minutes and seconds. *)
Record clip : Type := {
  clip_id : string;
  clip_title : string;
  clip_hours : nat;
  clip_minutes : nat;
  clip_seconds : nat
}.

Definition clip_length (c : clip) : nat :=
  3600 * clip_hours c + 60 * clip_minutes c + clip_seconds c.

(** The item of the metadata response for a clip. *)
Definition item_of_clip (c : clip) : video_item :=
  item_of (clip_id c)
    (iso_hms (clip_hours c) (clip_minutes c) (clip_seconds c))
    (clip_title c).

(** The record expected for a clip: one for a length of 240 to 1200
    seconds, none otherwise. *)
Definition record_of_clip (c : clip) : option video :=
  if (240 <=? clip_length c)%nat && (clip_length c <=? 1200)%nat then
    Some {| title := clip_title c;
            url := "https://www.youtube.com/watch?v=" ++ clip_id c;
            duration := py_round (Z.of_nat (clip_length c) # 60) 2 |}
  else None.

Definition sample_videos_env (items : list video_item) : env :=
  {| youtube_search := fun _ => Ok {| sr_items := Some [sample_entry "a"] |};
     youtube_videos := fun _ _ => Ok {| vr_items := Some items |};
     generate_content := fun _ _ => Ok "1";
     two_weeks_ago := "2024-01-01T00:00:00";
     parse_datetime := fun _ => Raise (ISO8601Error "Unrecognised ISO 8601 date format") |}.

(** An item that is too long and has neither title nor identifier. *)
Definition bare_long_item : video_item :=
  {| item_id := None;
     item_contentDetails := Some {| cd_duration := Some "PT25M" |};
     item_snippet := None |}.

(** An item in the window without title. *)
Definition untitled_item : video_item :=
  {| item_id := Some "u";
     item_contentDetails := Some {| cd_duration := Some "PT10M" |};
     item_snippet := Some {| sn_title := None |} |}.

Definition sample_clips : list clip :=
  [{| clip_id := "a"; clip_title := "A";
      clip_hours := 0; clip_minutes := 5; clip_seconds := 30 |};
   {| clip_id := "b"; clip_title := "B";
      clip_hours := 0; clip_minutes := 25; clip_seconds := 0 |};
   {| clip_id := "c"; clip_title := "C";
      clip_hours := 0; clip_minutes := 4; clip_seconds := 0 |};
   {| clip_id := "d"; clip_title := "D";
      clip_hours := 0; clip_minutes := 20; clip_seconds := 1 |}].

Definition good_startup : startup :=
  {| imports := Ok tt; configure_clients := Ok tt |}.

Definition voice_widgets (pressed : bool) : widgets :=
  {| mode := VoiceMode; text_input := "typed before"; button := pressed |}.

Definition text_widgets (text : string) : widgets :=
  {| mode := TextMode; text_input := text; button := false |}.

(** ** Proof support *)

Arguments prompt_of : simpl never.

Ltac outcome_inv H :=
  repeat match type of H with
    | context [getitem _ ?o] =>
        destruct o; cbn [obind getitem] in H; try discriminate H
    | context [obind ?x _] =>
        let E := fresh "E" in
        destruct x eqn:E; cbn [obind] in H; try discriminate H
    | context [if ?b then _ else _] =>
        let E := fresh "E" in
        destruct b eqn:E; cbn [obind] in H; try discriminate H
    end.

(** ** Rounding keeps the duration window *)

(** Rounding does not leave an interval with integer bounds. *)
Lemma round_half_even_bounds (a b : Z) (x : Q) :
  (inject_Z a <= x)%Q -> (x <= inject_Z b)%Q ->
  (a <= round_half_even x <= b)%Z.
Proof.
  intros Ha Hb.
  assert (Hfa : (a <= Qfloor x)%Z).
  { rewrite <- (Qfloor_Z a). now apply Qfloor_resp_le. }
  assert (Hfb : (Qfloor x <= b)%Z).
  { rewrite <- (Qfloor_Z b). now apply Qfloor_resp_le. }
  unfold round_half_even.
  destruct (Z.eq_dec (Qfloor x) b) as [Heq | Hne].
  - assert (Hx : (x - inject_Z (Qfloor x) ?= 1 # 2)%Q = Lt).
    { apply (proj1 (Qlt_alt _ _)). rewrite Heq. clear -Hb.
      revert Hb. generalize (inject_Z b). intros q Hq. lra. }
    rewrite Hx. lia.
  - destruct (x - inject_Z (Qfloor x) ?= 1 # 2)%Q; [destruct (Z.even _) | |]; lia.
Qed.

(** [round(x, 2)] stays between 4 and 20 when [x] does. *)
Lemma py_round_window (x : Q) :
  (4 <= x)%Q -> (x <= 20)%Q -> (4 <= py_round x 2)%Q /\ (py_round x 2 <= 20)%Q.
Proof.
  intros H4 H20. unfold py_round.
  change (inject_Z (10 ^ Z.of_nat 2)) with (inject_Z 100).
  destruct (round_half_even_bounds 400 2000 (x * inject_Z 100)) as [Hlo Hhi].
  - change (inject_Z 400) with (4 * inject_Z 100)%Q.
    now apply Qmult_le_compat_r.
  - change (inject_Z 2000) with (20 * inject_Z 100)%Q.
    now apply Qmult_le_compat_r.
  - set (z := round_half_even (x * inject_Z 100)) in *.
    unfold Qle, Qdiv, Qmult, Qinv, inject_Z; simpl. lia.
Qed.

(** A whole number is its own rounding. *)
Lemma round_half_even_whole (x : Q) (z : Z) :
  (x == inject_Z z)%Q -> round_half_even x = z.
Proof.
  intros Hx. unfold round_half_even.
  rewrite (Qfloor_comp _ _ Hx), Qfloor_Z.
  assert (Hc : (x - inject_Z z ?= 1 # 2)%Q = Lt).
  { apply (proj1 (Qlt_alt _ _)). rewrite Hx.
    generalize (inject_Z z). intros q. lra. }
  now rewrite Hc.
Qed.

(** A whole number of microseconds is kept as it is. *)
Lemma round_microseconds_whole (t : Q) (us : Z) :
  (t * 1000000 == inject_Z us)%Q -> (Isodate.round_microseconds t == t)%Q.
Proof.
  intros Hus. unfold Isodate.round_microseconds.
  rewrite (round_half_even_whole _ _ Hus), <- Hus. field.
Qed.

(** ** The filter loop *)

(** A record is only built for a duration inside the window. *)
Lemma filter_item_window (E : env) (item : video_item) (r : video) :
  filter_item E item = Ok (Some r) -> in_window (duration r).
Proof.
  intros H. unfold filter_item, mbind, outcome_bind in H.
  outcome_inv H. injection H as <-. simpl.
  match goal with Hw : _ && _ = true |- _ => apply andb_prop in Hw as [H4 H20] end.
  apply Qle_bool_iff in H4, H20. now apply py_round_window.
Qed.

(** What holds of every record built holds of the list the loop returns. *)
Lemma filter_loop_Forall (P : video -> Prop) (E : env) :
  (forall item r, filter_item E item = Ok (Some r) -> P r) ->
  forall items filtered,
    Forall P filtered -> Forall P (filter_loop E items filtered).2.
Proof.
  intros HP items. induction items as [| item rest IH]; intros filtered HF.
  - exact HF.
  - simpl. destruct (filter_item E item) as [[r |] | e] eqn:Hitem.
    + apply IH. apply Forall_app. split; [exact HF |].
      constructor; [now apply (HP item) | constructor].
    + now apply IH.
    + exact HF.
Qed.

(** A prefix that the loop passes without raising only contributes its
    records. *)
Lemma filter_loop_app (E : env) (pre rest : list video_item) :
  forall filtered acc,
    filter_loop E pre filtered = (Ok tt, acc) ->
    filter_loop E (pre ++ rest)%list filtered = filter_loop E rest acc.
Proof.
  induction pre as [| item pre IH]; intros filtered acc H; simpl in *.
  - now injection H as <-.
  - destruct (filter_item E item) as [[r |] | e]; try discriminate H;
      now apply IH.
Qed.

(** The records appended by the loop come, in order, from a subsequence of
    the items. *)
Lemma filter_loop_sublist (E : env) (items : list video_item) :
  forall filtered, exists kept out,
    (filter_loop E items filtered).2 = (filtered ++ out)%list
    /\ kept `sublist_of` items
    /\ Forall2 (fun item r => filter_item E item = Ok (Some r)) kept out.
Proof.
  induction items as [| item rest IH]; intros filtered; simpl.
  - exists [], []. rewrite app_nil_r. repeat split; constructor.
  - destruct (filter_item E item) as [[r |] | e] eqn:Hitem.
    + destruct (IH (filtered ++ [r])%list) as (kept & out & Hout & Hsub & Hall).
      exists (item :: kept), (r :: out). split; [| split].
      * rewrite Hout, <- app_assoc. reflexivity.
      * now constructor.
      * now constructor.
    + destruct (IH filtered) as (kept & out & Hout & Hsub & Hall).
      exists kept, out. split; [exact Hout | split; [| exact Hall]].
      now constructor.
    + exists [], []. rewrite app_nil_r. simpl. split; [reflexivity |].
      split; [apply sublist_nil_l | constructor].
Qed.

(** [filter_videos] never raises, and returns what the loop accumulated
    over the items of the response. *)
Lemma filter_videos_loop (E : env) (ids : list string) :
  ids <> [] ->
  exists evs,
    filter_videos ids E = (Ok (filter_loop E (response_items E ids) []).2, evs).
Proof.
  intros Hne. destruct ids as [| id ids]; [congruence |].
  unfold filter_videos, response_items, videos_list.
  destruct (youtube_videos E _ _) as [details | e].
  - destruct (filter_loop E _ []) as [[[] | e] filtered]; eauto.
  - simpl. eauto.
Qed.

(** ** Properties of [filter_videos] *)

(** C1. Every record that [filter_videos] returns, for any identifiers and
    any answers of the metadata API, has a duration between 4 and 20
    minutes, bounds included; [filter_videos] always returns a list. *)
Theorem filter_videos_duration_window (E : env) (ids : list string) :
  exists out evs,
    filter_videos ids E = (Ok out, evs)
    /\ Forall (fun v => (4 <= duration v)%Q /\ (duration v <= 20)%Q) out.
Proof.
  destruct ids as [| id ids].
  - exists [], []. split; [reflexivity | constructor].
  - destruct (filter_videos_loop E (id :: ids)) as [evs Hrun]; [congruence |].
    eexists _, evs. split; [exact Hrun |].
    apply filter_loop_Forall; [| constructor].
    intros item r. apply filter_item_window.
Qed.

(** C7. When the metadata call raises, [filter_videos] returns the empty
    list; when the duration of an item cannot be parsed, it returns the
    records accumulated from the items before it, whatever follows that
    item in the batch.  In both cases the error is shown and not raised. *)
Theorem filter_videos_partial_failure (E : env) (ids : list string) :
  ids <> [] ->
  let call := YoutubeVideos "contentDetails,snippet" (join "," ids) in
  let report e := StError [Txt "Duration Filter Error: "; Exc e] in
  (forall e,
     youtube_videos E "contentDetails,snippet" (join "," ids) = Raise e ->
     filter_videos ids E = (Ok [], [call; report e]))
  /\ (forall details pre item post acc cd iso e,
        youtube_videos E "contentDetails,snippet" (join "," ids) = Ok details ->
        vr_items details = Some (pre ++ item :: post)%list ->
        filter_loop E pre [] = (Ok tt, acc) ->
        item_contentDetails item = Some cd ->
        cd_duration cd = Some iso ->
        parse_duration E iso = Raise e ->
        filter_videos ids E = (Ok acc, [call; report e])).
Proof.
  intros Hne call report. destruct ids as [| id ids]; [congruence |].
  split.
  - intros e Hcall. unfold filter_videos, videos_list. now rewrite Hcall.
  - intros details pre item post acc cd iso e Hcall Hitems Hpre Hcd Hiso Hparse.
    unfold filter_videos, videos_list. rewrite Hcall, Hitems. simpl default.
    rewrite (filter_loop_app E pre (item :: post) [] acc Hpre).
    assert (Hitem : filter_item E item = Raise e).
    { unfold filter_item, mbind, outcome_bind. rewrite Hcd. cbn [getitem obind].
      rewrite Hiso. cbn [getitem obind]. now rewrite Hparse. }
    cbn [filter_loop]. now rewrite Hitem.
Qed.

(** The theorem at work: a failing metadata call, and a batch whose fourth
    item has the duration "oops". *)
Lemma filter_videos_partial_failure_witness :
  filter_videos ["a"] failing_env
  = (Ok [], [YoutubeVideos "contentDetails,snippet" "a";
             StError [Txt "Duration Filter Error: ";
                      Exc (OtherError "HttpError 403")]])
  /\ filter_videos ["a"; "b"] (sample_env (Ok "1"))
     = (Ok sample_videos,
        [YoutubeVideos "contentDetails,snippet" "a,b";
         StError [Txt "Duration Filter Error: ";
                  Exc (ISO8601Error "Unable to parse duration string")]]).
Proof.
  split.
  - apply (proj1 (filter_videos_partial_failure failing_env ["a"]
                    ltac:(discriminate))).
    reflexivity.
  - apply (proj2 (filter_videos_partial_failure (sample_env (Ok "1"))
                    ["a"; "b"] ltac:(discriminate))
             {| vr_items := Some sample_items |}
             (take 3 sample_items) (item_of "d" "oops" "D")
             [item_of "e" "PT10M" "E"] sample_videos
             {| cd_duration := Some "oops" |} "oops");
      reflexivity.
Defined.

(** C8. The records returned by [filter_videos] are built, one by one and
    in the same order, from a subsequence of the items of the metadata
    response. *)
Theorem filter_videos_order_preserved (E : env) (ids : list string) :
  exists out evs kept,
    filter_videos ids E = (Ok out, evs)
    /\ kept `sublist_of` response_items E ids
    /\ Forall2 (fun item r => filter_item E item = Ok (Some r)) kept out.
Proof.
  destruct ids as [| id ids].
  - exists [], [], []. split; [reflexivity |].
    split; [apply sublist_nil_l | constructor].
  - destruct (filter_videos_loop E (id :: ids)) as [evs Hrun]; [congruence |].
    destruct (filter_loop_sublist E (response_items E (id :: ids)) [])
      as (kept & out & Hout & Hsub & Hall).
    exists out, evs, kept. split; [| now split].
    rewrite Hrun, Hout. reflexivity.
Qed.

(** ** Properties of [select_best_video] *)

(** An index inside the list is served by [subscript]. *)
Lemma subscript_in_range {A} (l : list A) (i : Z) :
  (0 <= i < Z.of_nat (List.length l))%Z ->
  exists a, l !! Z.to_nat i = Some a /\ subscript l i = Ok a.
Proof.
  intros [H0 Hlen]. unfold subscript.
  destruct (i <? 0)%Z eqn:Hneg; [apply Z.ltb_lt in Hneg; lia |].
  rewrite Hneg.
  destruct (lookup_lt_is_Some_2 l (Z.to_nat i)) as [a Ha]; [lia |].
  exists a. now rewrite Ha.
Qed.

(** With videos and a query that are not empty, [select_best_video] calls
    the model once and returns [choice_of]. *)
Lemma select_best_video_run (E : env) (v : video) (vs : list video)
    (c : ascii) (q : string) :
  let videos := v :: vs in
  let query := String c q in
  select_best_video videos query E
  = (Ok (Some (choice_of E v vs query)),
     [GenerateContent model_name (prompt_of videos query)]).
Proof.
  intros videos query. subst videos query.
  unfold select_best_video, choice_of.
  cbn [orb]. unfold try_except, mbind, M_bind, model_text, lift, mret, M_ret.
  fold model_name.
  destruct (generate_content E model_name (prompt_of (v :: vs) (String c q)))
    as [text | e]; [| reflexivity].
  destruct (py_int (strip text)) as [n | e]; [| reflexivity].
  destruct ((0 <=? n - 1)%Z && (n - 1 <? Z.of_nat (List.length (v :: vs)))%Z)
    eqn:Hrange; [| reflexivity].
  apply andb_prop in Hrange as [H0 Hlen].
  apply Z.leb_le in H0. apply Z.ltb_lt in Hlen.
  destruct (subscript_in_range (v :: vs) (n - 1)%Z) as (a & Ha & Hsub);
    [lia |].
  rewrite Hsub, Ha. reflexivity.
Qed.

(** C2. On an empty list [select_best_video] returns [None], whatever the
    query; on a non-empty list and the empty query it returns the first
    video.  Neither case produces an event: the model is not called. *)
Theorem select_best_video_edge_cases (E : env) :
  (forall query, select_best_video [] query E = (Ok None, []))
  /\ (forall v vs, select_best_video (v :: vs) "" E = (Ok (Some v), [])).
Proof.
  split.
  - intros query. reflexivity.
  - intros v vs. reflexivity.
Qed.

(** C3. With videos and a query that are not empty, when the stripped
    reply of the model reads as an integer [k] between 1 and the number of
    videos, [select_best_video] returns the [k]-th video, after one call of
    the model. *)
Theorem select_best_video_model_choice (E : env) (videos : list video)
    (query reply : string) (k : Z) :
  videos <> [] ->
  query <> "" ->
  generate_content E model_name (prompt_of videos query) = Ok reply ->
  py_int (strip reply) = Ok k ->
  (1 <= k <= Z.of_nat (List.length videos))%Z ->
  exists v,
    videos !! Z.to_nat (k - 1) = Some v
    /\ select_best_video videos query E
       = (Ok (Some v), [GenerateContent model_name (prompt_of videos query)]).
Proof.
  intros Hv Hq Hreply Hint Hk.
  destruct videos as [| v vs]; [congruence |].
  destruct query as [| c q]; [congruence |].
  destruct (lookup_lt_is_Some_2 (v :: vs) (Z.to_nat (k - 1))) as [a Ha];
    [lia |].
  exists a. split; [exact Ha |].
  rewrite select_best_video_run. unfold choice_of.
  rewrite Hreply, Hint, Ha.
  replace (0 <=? k - 1)%Z with true by (symmetry; apply Z.leb_le; lia).
  replace (k - 1 <? Z.of_nat (List.length (v :: vs)))%Z with true
    by (symmetry; apply Z.ltb_lt; lia).
  reflexivity.
Qed.

(** The theorem at work: the reply " 2 " picks the second video. *)
Lemma select_best_video_model_choice_witness :
  exists v,
    sample_videos !! 1%nat = Some v
    /\ select_best_video sample_videos "lofi" (sample_env (Ok " 2 "))
       = (Ok (Some v),
          [GenerateContent model_name (prompt_of sample_videos "lofi")]).
Proof.
  apply (select_best_video_model_choice (sample_env (Ok " 2 ")) sample_videos
           "lofi" " 2 " 2).
  - discriminate.
  - discriminate.
  - reflexivity.
  - reflexivity.
  - simpl. lia.
Defined.

(** C4. With videos and a query that are not empty, [select_best_video]
    returns the first video, and raises nothing, when the call of the model
    raises, when the reply is "0", when the reply does not read as an
    integer, and when the integer is outside 1..len(videos). *)
Theorem select_best_video_fallback (E : env) (v : video) (vs : list video)
    (query : string) :
  query <> "" ->
  let videos := v :: vs in
  let answer := generate_content E model_name (prompt_of videos query) in
  (exists e, answer = Raise e)
  \/ (exists reply,
        answer = Ok reply
        /\ (strip reply = "0"
            \/ (exists e, py_int (strip reply) = Raise e)
            \/ (exists k, py_int (strip reply) = Ok k
                  /\ (k < 1 \/ Z.of_nat (List.length videos) < k)%Z))) ->
  select_best_video videos query E
  = (Ok (Some v), [GenerateContent model_name (prompt_of videos query)]).
Proof.
  intros Hq videos answer H.
  destruct query as [| c q]; [congruence |].
  unfold videos. rewrite select_best_video_run. unfold choice_of.
  fold videos. fold answer.
  destruct H as [[e ->] | (reply & -> & H)]; [reflexivity |].
  destruct H as [H0 | [[e ->] | (k & -> & Hk)]].
  - rewrite H0. reflexivity.
  - reflexivity.
  - destruct Hk as [Hk | Hk].
    + replace (0 <=? k - 1)%Z with false by (symmetry; apply Z.leb_gt; lia).
      reflexivity.
    + replace (k - 1 <? Z.of_nat (List.length videos))%Z with false
        by (symmetry; apply Z.ltb_ge; lia).
      now rewrite andb_false_r.
Qed.

(** The theorem at work: the reply "0", and a model call that raises. *)
Lemma select_best_video_fallback_witness :
  select_best_video sample_videos "lofi" (sample_env (Ok "0"))
  = (Ok (sample_videos !! 0%nat),
     [GenerateContent model_name (prompt_of sample_videos "lofi")])
  /\ select_best_video sample_videos "lofi" failing_env
     = (Ok (sample_videos !! 0%nat),
        [GenerateContent model_name (prompt_of sample_videos "lofi")]).
Proof.
  split.
  - apply (select_best_video_fallback (sample_env (Ok "0")) _ _ "lofi");
      [discriminate |].
    right. exists "0". split; [reflexivity |]. left. reflexivity.
  - apply (select_best_video_fallback failing_env _ _ "lofi");
      [discriminate |].
    left. eexists. reflexivity.
Defined.

(** ** Properties of [parse_duration] *)

(** C5, as stated, fails on a duration with a day component: "P1DT1H" is
    1500 minutes long, and its hours, minutes and seconds add up to 60. *)
Lemma parse_duration_day_component :
  exists g q,
    Isodate.period_match "P1DT1H" = Some g
    /\ parse_duration failing_env "P1DT1H" = Ok q
    /\ (q == 1500)%Q
    /\ ~ (q == hms_minutes g)%Q.
Proof.
  eexists _, _. split; [reflexivity |]. split; [reflexivity |].
  split; [reflexivity | discriminate].
Qed.

(** C5, amended.  For a string that matches the period pattern, without a
    minus sign and within the range of [timedelta], [parse_duration]
    returns the seconds of its components, rounded to the nearest
    microsecond, divided by 60.  When the duration is a whole number of
    microseconds, this is weeks*10080 + days*1440 + hours*60 + minutes +
    seconds/60, which is hours*60 + minutes + seconds/60 when the week and
    day components are zero; "PT5M30S" gives 5.5.  Malformed input raises:
    every error of the parser is raised to the caller; the parser rejects
    every string that matches neither the period pattern nor the
    alternative format, among them every string that starts with PT and
    does not match the period pattern. *)
Theorem parse_duration_components (E : env) :
  (forall d g,
     Isodate.period_match d = Some g ->
     Isodate.is_minus (Isodate.sign g) = false ->
     Isodate.in_range (Isodate.round_microseconds (seconds_of g)) = true ->
     exists q,
       parse_duration E d = Ok q
       /\ (q == Isodate.round_microseconds (seconds_of g) / 60)%Q
       /\ ((exists us : Z, (seconds_of g * 1000000 == inject_Z us)%Q) ->
           (q == Isodate.weeks g * 10080 + Isodate.days g * 1440
                 + hms_minutes g)%Q
           /\ ((Isodate.weeks g == 0)%Q -> (Isodate.days g == 0)%Q ->
               (q == hms_minutes g)%Q)))
  /\ (exists q, parse_duration E "PT5M30S" = Ok q /\ (q == 5.5)%Q)
  /\ (forall d e,
        Isodate.parse_duration (parse_datetime E) d = Raise e ->
        parse_duration E d = Raise e)
  /\ (forall d,
        Isodate.period_match d = None ->
        (Isodate.startswith_P d = false
         \/ Isodate.datetime_shape (Isodate.tail d) = false
         \/ exists e, parse_datetime E (Isodate.tail d) = Raise e) ->
        exists e, parse_duration E d = Raise e)
  /\ (forall rest,
        Isodate.period_match ("PT" ++ rest) = None ->
        exists e, parse_duration E ("PT" ++ rest) = Raise e).
Proof.
  assert (Hbad : forall d,
            Isodate.period_match d = None ->
            (Isodate.startswith_P d = false
             \/ Isodate.datetime_shape (Isodate.tail d) = false
             \/ exists e, parse_datetime E (Isodate.tail d) = Raise e) ->
            exists e, parse_duration E d = Raise e).
  { intros d Hmatch Hbad.
    unfold parse_duration, Isodate.parse_duration, Isodate.read_datetime,
      mbind, outcome_bind.
    rewrite Hmatch.
    destruct (Isodate.startswith_P d); [| eexists; reflexivity].
    destruct Hbad as [HP | [Hshape | [e He]]]; [discriminate | |].
    - rewrite Hshape. eexists. reflexivity.
    - destruct (Isodate.datetime_shape _); [| eexists; reflexivity].
      rewrite He. eexists. reflexivity. }
  split; [| split; [| split; [| split; [exact Hbad |]]]].
  - intros d g Hmatch Hsign Hrange.
    exists (Isodate.round_microseconds (seconds_of g) / 60)%Q.
    split; [| split; [reflexivity |]].
    + unfold parse_duration, Isodate.parse_duration, mbind, outcome_bind.
      rewrite Hmatch. unfold Isodate.make_timedelta, Isodate.check_range.
      fold (seconds_of g). rewrite Hrange. cbn [obind]. rewrite Hsign.
      reflexivity.
    + intros [us Hus].
      assert (Hq : (Isodate.round_microseconds (seconds_of g) / 60
                    == Isodate.weeks g * 10080 + Isodate.days g * 1440
                       + hms_minutes g)%Q).
      { rewrite (round_microseconds_whole _ _ Hus).
        unfold seconds_of, hms_minutes. field. }
      split; [exact Hq |].
      intros Hw Hd. rewrite Hq, Hw, Hd. ring.
  - eexists. split; reflexivity.
  - intros d e Hraise. unfold parse_duration, mbind, outcome_bind.
    now rewrite Hraise.
  - intros rest Hmatch. apply Hbad; [exact Hmatch |].
    right. left. cbn [append Isodate.tail].
    unfold Isodate.datetime_shape. apply andb_false_intro2.
    destruct rest; reflexivity.
Qed.

(** The theorem at work: "PT1H2M3S" is 62.05 minutes long, 0.4
    microseconds are no time at all, "PT5X" and "5 minutes" raise, and so
    does a string of the alternative format when its reader raises. *)
Lemma parse_duration_components_witness :
  (exists q, parse_duration failing_env "PT1H2M3S" = Ok q /\ (q == 62.05)%Q)
  /\ (exists q, parse_duration failing_env "PT0.0000004S" = Ok q /\ (q == 0)%Q)
  /\ (exists e, parse_duration failing_env "PT5X" = Raise e)
  /\ (exists e, parse_duration failing_env "5 minutes" = Raise e)
  /\ parse_duration failing_env "P2024-01-01T00:05:00"
     = Raise (ISO8601Error "Unrecognised ISO 8601 date format").
Proof.
  split; [| split; [| split; [| split]]].
  - destruct (proj1 (parse_duration_components failing_env) "PT1H2M3S" _
                eq_refl eq_refl eq_refl) as (q & Hq & _ & Hwhole).
    exists q. split; [exact Hq |].
    destruct Hwhole as [_ Hhms]; [exists 3723000000%Z; reflexivity |].
    rewrite Hhms; reflexivity.
  - destruct (proj1 (parse_duration_components failing_env) "PT0.0000004S" _
                eq_refl eq_refl eq_refl) as (q & Hq & Hval & _).
    exists q. split; [exact Hq |]. rewrite Hval. reflexivity.
  - apply (proj2 (proj2 (proj2 (proj2
             (parse_duration_components failing_env)))) "5X").
    reflexivity.
  - apply (proj1 (proj2 (proj2 (proj2
             (parse_duration_components failing_env)))) "5 minutes").
    + reflexivity.
    + now left.
  - apply (proj1 (proj2 (proj2 (parse_duration_components failing_env)))).
    reflexivity.
Defined.

(** ** Properties of [search_youtube] *)

(** C6. [search_youtube] returns the empty list for the empty query,
    without any call; and when the search call raises, it returns the empty
    list after that single call, with the error shown to the user. *)
Theorem search_youtube_empty_or_failed (E : env) :
  search_youtube "" E = (Ok [], [])
  /\ (forall query e,
        query <> "" ->
        let req := search_params query (two_weeks_ago E ++ "Z") in
        youtube_search E req = Raise e ->
        search_youtube query E
        = (Ok [], [YoutubeSearch req; StError [Txt "API Error: "; Exc e]])).
Proof.
  split; [reflexivity |].
  intros query e Hq req Hcall. destruct query as [| c q]; [congruence |].
  unfold search_youtube, try_except, mbind, M_bind, utcnow_minus_14_days,
    search_list.
  fold req. rewrite Hcall. reflexivity.
Qed.

(** The theorem at work: a search call that raises. *)
Lemma search_youtube_empty_or_failed_witness :
  search_youtube "lofi" failing_env
  = (Ok [],
     [YoutubeSearch (search_params "lofi" "2024-01-01T00:00:00Z");
      StError [Txt "API Error: "; Exc (OtherError "HttpError 403")]]).
Proof.
  apply (proj2 (search_youtube_empty_or_failed failing_env) "lofi"
           (OtherError "HttpError 403")).
  - discriminate.
  - reflexivity.
Defined.

(** ** The Displaying step *)

(** A loop that shows one line per element produces these lines. *)
Lemma for_each_emit {A} (E : env) (g : nat -> A -> event) (l : list A) :
  forall k : nat -> nat,
    for_each (imap (fun i x => (k i, x)) l) (fun '(i, x) => emit (g i x)) E
    = (Ok tt, imap (fun i x => g (k i) x) l).
Proof.
  induction l as [| x l IH]; intros k; [reflexivity |].
  cbn [imap for_each]. unfold mbind, M_bind.
  change (imap ((fun i x => (k i, x)) ∘ S) l)
    with (imap (fun i x => ((k ∘ S) i, x)) l).
  rewrite (IH (k ∘ S)). reflexivity.
Qed.

(** The trace of the Displaying step, in closed form. *)
Lemma display_results_run (E : env) (filtered : list video) :
  display_results filtered E
  = (Ok tt,
     StSubheader "📄 Filtered Results:"
     :: (imap result_line (take 5 filtered)
         ++ (if (5 <? List.length filtered)%nat
             then [more_line (List.length filtered - 5)] else []))%list).
Proof.
  unfold display_results, mbind, M_bind, enumerate.
  change (for_each _ _ E)
    with (for_each (imap (fun i x => (id i, x)) (take 5 filtered))
            (fun '(i, x) => emit (result_line i x)) E).
  rewrite (for_each_emit E result_line (take 5 filtered) id).
  unfold emit at 1. cbn [app].
  destruct (5 <? List.length filtered)%nat; reflexivity.
Qed.

(** C9. The Displaying step shows, after its heading, one line for each of
    the first five records, in order (so min(len(filtered), 5) lines), and
    then the line "...and N more." with N = len(filtered) - 5 exactly when
    there are more than five records. *)
Theorem display_results_lines (E : env) (filtered : list video) :
  exists lines more,
    display_results filtered E
    = (Ok tt, StSubheader "📄 Filtered Results:" :: (lines ++ more)%list)
    /\ lines = imap result_line (take 5 filtered)
    /\ List.length lines = Nat.min (List.length filtered) 5
    /\ more = (if decide (5 < List.length filtered)%nat
               then [more_line (List.length filtered - 5)] else []).
Proof.
  eexists _, _. split; [apply display_results_run |].
  split; [reflexivity |]. split.
  - rewrite length_imap, length_take. lia.
  - destruct (Nat.ltb_spec 5 (List.length filtered));
      destruct (decide (5 < List.length filtered)%nat); try lia; reflexivity.
Qed.

(** ** The top pick *)

(** The choice is always one of the videos. *)
Lemma choice_of_elem (E : env) (v : video) (vs : list video) (query : string) :
  choice_of E v vs query ∈ v :: vs.
Proof.
  unfold choice_of.
  destruct (generate_content E model_name _) as [text | e]; [| left].
  destruct (py_int (strip text)) as [n | e]; [| left].
  destruct (_ && _); [| left].
  destruct ((v :: vs) !! Z.to_nat (n - 1)) as [a |] eqn:Ha; [| left].
  simpl. eapply list_elem_of_lookup_2. exact Ha.
Qed.

(** C10. On a non-empty list [select_best_video] returns one of its
    elements, whatever the query and the model do; and when the filter
    yields at least one record, the workflow ends by showing a top pick
    taken from the filtered list. *)
Theorem top_pick_always_produced (E : env) (query : string) :
  (forall videos,
     videos <> [] ->
     exists best evs,
       select_best_video videos query E = (Ok (Some best), evs)
       /\ best ∈ videos)
  /\ (forall ids evs1 filtered evs2,
        query <> "" ->
        search_youtube query E = (Ok ids, evs1) ->
        ids <> [] ->
        filter_videos ids E = (Ok filtered, evs2) ->
        filtered <> [] ->
        exists best shown,
          best ∈ filtered
          /\ main_workflow query E = (Ok tt, (shown ++ top_pick best)%list)).
Proof.
  split.
  - intros [| v vs] Hne; [congruence |]. destruct query as [| c q].
    + exists v, []. split; [reflexivity | left].
    + eexists _, _. split; [apply select_best_video_run |].
      apply choice_of_elem.
  - intros ids evs1 filtered evs2 Hq Hsearch Hids Hfilter Hne.
    destruct query as [| c q]; [congruence |].
    destruct ids as [| id ids]; [congruence |].
    destruct filtered as [| v vs]; [congruence |].
    exists (choice_of E v vs (String c q)). eexists.
    split; [apply choice_of_elem |].
    unfold main_workflow, mbind, M_bind.
    rewrite Hsearch. cbn iota. rewrite Hfilter. cbn iota.
    rewrite display_results_run, select_best_video_run.
    unfold emit, top_pick. cbn iota.
    repeat rewrite app_assoc.
    rewrite <- (app_assoc _ [_] [_]), <- (app_assoc _ [_] ([_] ++ [_])).
    reflexivity.
Qed.

(** The theorem at work: a selection whose model call raises, and a full
    run of the workflow. *)
Lemma top_pick_always_produced_witness :
  (exists best evs,
     select_best_video sample_videos "lofi" failing_env = (Ok (Some best), evs)
     /\ best ∈ sample_videos)
  /\ (exists best shown,
        best ∈ sample_videos
        /\ main_workflow "lofi" (sample_env (Ok "2"))
           = (Ok tt, (shown ++ top_pick best)%list)).
Proof.
  split.
  - apply (proj1 (top_pick_always_produced failing_env "lofi") sample_videos).
    discriminate.
  - eapply (proj2 (top_pick_always_produced (sample_env (Ok "2")) "lofi")
              ["a"] _ sample_videos).
    + discriminate.
    + reflexivity.
    + discriminate.
    + reflexivity.
    + discriminate.
Defined.

(** * Further properties of the script *)

(** ** The search client *)

(** A comprehension over a list either gives the results, element by
    element, or raises what its first failing element raises. *)
Lemma mapM_outcome_cases {A B} (f : A -> outcome B) (l : list A) :
  (exists ys, mapM f l = Ok ys /\ Forall2 (fun x y => f x = Ok y) l ys)
  \/ (exists x e, x ∈ l /\ f x = Raise e /\ mapM f l = Raise e).
Proof.
  induction l as [| x l IH].
  - left. exists []. split; [reflexivity | constructor].
  - change (mapM f (x :: l))
      with (obind (f x) (fun y => obind (mapM f l) (fun k => Ok (y :: k)))).
    destruct (f x) as [y | e] eqn:Hx; cbn [obind].
    + destruct IH as [(ys & Hys & Hall) | (x' & e & Hin & Hx' & Hraise)].
      * left. exists (y :: ys). rewrite Hys.
        split; [reflexivity | now constructor].
      * right. exists x', e. rewrite Hraise.
        split; [now right | now split].
    + right. exists x, e. split; [left | now split].
Qed.

(** With a query that is not empty, [search_youtube] makes one search call
    and then depends on the response only. *)
Lemma search_youtube_run (E : env) (c : ascii) (q : string) :
  let query := String c q in
  let call := YoutubeSearch (request_of E query) in
  let report e := StError [Txt "API Error: "; Exc e] in
  search_youtube query E
  = match youtube_search E (request_of E query) with
    | Ok results =>
        match mapM video_id_of (default [] (sr_items results)) with
        | Ok ids => (Ok ids, [call])
        | Raise e => (Ok [], [call; report e])
        end
    | Raise e => (Ok [], [call; report e])
    end.
Proof.
  intros query call report. subst query call report.
  unfold search_youtube, try_except, mbind, M_bind, utcnow_minus_14_days,
    search_list, lift, request_of.
  destruct (youtube_search E _) as [results | e]; [| reflexivity].
  change (mapM _ (default [] (sr_items results)))
    with (mapM video_id_of (default [] (sr_items results))).
  destruct (mapM video_id_of _); reflexivity.
Qed.

(** X1. [search_youtube] never raises and calls the search API at most
    once; when it returns identifiers, they are the [videoId]s of all the
    items of the response, in the order of the response. *)
Theorem search_youtube_sound (E : env) (query : string) :
  exists ids evs,
    search_youtube query E = (Ok ids, evs)
    /\ (List.length (api_calls evs) <= 1)%nat
    /\ (ids <> [] ->
        exists results,
          youtube_search E (request_of E query) = Ok results
          /\ Forall2 (fun item id => video_id_of item = Ok id)
               (default [] (sr_items results)) ids).
Proof.
  destruct query as [| c q].
  - exists [], []. split; [reflexivity |]. split; [simpl; lia | congruence].
  - rewrite search_youtube_run.
    destruct (youtube_search E _) as [results | e].
    + destruct (mapM_outcome_cases video_id_of (default [] (sr_items results)))
        as [(ids & -> & Hall) | (x & e & _ & _ & ->)].
      * eexists _, _. split; [reflexivity |]. split; [simpl; lia |].
        intros _. now exists results.
      * eexists _, _. split; [reflexivity |]. split; [simpl; lia | congruence].
    + eexists _, _. split; [reflexivity |]. split; [simpl; lia | congruence].
Qed.

(** The theorem at work: a response of two items. *)
Lemma search_youtube_sound_witness :
  let E := sample_search_env [sample_entry "a"; sample_entry "b"] in
  exists results,
    youtube_search E (request_of E "lofi") = Ok results
    /\ Forall2 (fun item id => video_id_of item = Ok id)
         (default [] (sr_items results)) ["a"; "b"].
Proof.
  intros E.
  destruct (search_youtube_sound E "lofi") as (ids & evs & Hrun & _ & Hids).
  assert (Heq : ids = ["a"; "b"]) by (vm_compute in Hrun; congruence).
  subst ids. apply Hids. discriminate.
Defined.

(** X2. When every item of the search response carries a [videoId],
    [search_youtube] returns these identifiers in order, after one call
    and without any message. *)
Theorem search_youtube_ids (E : env) (query : string)
    (results : search_response) (ids : list string) :
  query <> "" ->
  youtube_search E (request_of E query) = Ok results ->
  Forall2 (fun item id => video_id_of item = Ok id)
    (default [] (sr_items results)) ids ->
  search_youtube query E = (Ok ids, [YoutubeSearch (request_of E query)]).
Proof.
  intros Hq Hcall Hall. destruct query as [| c q]; [congruence |].
  rewrite search_youtube_run, Hcall.
  destruct (mapM_outcome_cases video_id_of (default [] (sr_items results)))
    as [(ids' & -> & Hall') | (x & e & Hin & Hx & _)].
  - f_equal. f_equal. revert ids' Hall'.
    induction Hall as [| item id items ids Hid _ IH]; intros ids' Hall';
      inversion Hall' as [| ? id' ? ids'' Hid' Hrest]; subst; [reflexivity |].
    rewrite Hid in Hid'. injection Hid' as <-. f_equal. now apply IH.
  - exfalso. apply list_elem_of_lookup in Hin as [i Hi].
    destruct (Forall2_lookup_l _ _ _ _ _ Hall Hi) as (id & _ & Hid).
    congruence.
Qed.

(** The theorem at work: a response of two items. *)
Lemma search_youtube_ids_witness :
  let E := sample_search_env [sample_entry "a"; sample_entry "b"] in
  search_youtube "lofi" E = (Ok ["a"; "b"], [YoutubeSearch (request_of E "lofi")]).
Proof.
  intros E.
  apply (search_youtube_ids E "lofi"
           {| sr_items := Some [sample_entry "a"; sample_entry "b"] |}).
  - discriminate.
  - reflexivity.
  - repeat constructor.
Defined.

(** X3. One item without [id] or without [videoId] loses the whole search:
    [search_youtube] returns the empty list, whatever the other items
    carry, and shows the [KeyError]. *)
Theorem search_youtube_malformed_item (E : env) (query : string)
    (results : search_response) (item : search_item) :
  query <> "" ->
  youtube_search E (request_of E query) = Ok results ->
  item ∈ default [] (sr_items results) ->
  (si_id item = None
   \/ exists id, si_id item = Some id /\ videoId id = None) ->
  exists key,
    (key = "id" \/ key = "videoId")
    /\ search_youtube query E
       = (Ok [], [YoutubeSearch (request_of E query);
                  StError [Txt "API Error: "; Exc (KeyError key)]]).
Proof.
  intros Hq Hcall Hin Hbad. destruct query as [| c q]; [congruence |].
  rewrite search_youtube_run, Hcall.
  assert (Hkey : forall x e, video_id_of x = Raise e ->
                   e = KeyError "id" \/ e = KeyError "videoId").
  { intros x e. unfold video_id_of, mbind, outcome_bind.
    destruct (si_id x) as [id |]; cbn [getitem obind].
    - destruct (videoId id); cbn [getitem]; intros H; [discriminate |].
      right. congruence.
    - intros H. left. congruence. }
  destruct (mapM_outcome_cases video_id_of (default [] (sr_items results)))
    as [(ids & _ & Hall) | (x & e & _ & Hx & ->)].
  - exfalso. apply list_elem_of_lookup in Hin as [i Hi].
    destruct (Forall2_lookup_l _ _ _ _ _ Hall Hi) as (id & _ & Hid).
    unfold video_id_of, mbind, outcome_bind in Hid.
    destruct Hbad as [Hnone | (id' & Hsome & Hnone)].
    + rewrite Hnone in Hid. discriminate.
    + rewrite Hsome in Hid. cbn [getitem obind] in Hid.
      rewrite Hnone in Hid. discriminate.
  - destruct (Hkey x e Hx) as [-> | ->].
    + exists "id". split; [now left | reflexivity].
    + exists "videoId". split; [now right | reflexivity].
Qed.

(** The theorem at work: the second of three items has no [id]. *)
Lemma search_youtube_malformed_item_witness :
  let E := sample_search_env
             [sample_entry "a"; {| si_id := None |}; sample_entry "c"] in
  exists key,
    (key = "id" \/ key = "videoId")
    /\ search_youtube "lofi" E
       = (Ok [], [YoutubeSearch (request_of E "lofi");
                  StError [Txt "API Error: "; Exc (KeyError key)]]).
Proof.
  intros E.
  apply (search_youtube_malformed_item E "lofi"
           {| sr_items := Some [sample_entry "a"; {| si_id := None |};
                                sample_entry "c"] |}
           {| si_id := None |}).
  - discriminate.
  - reflexivity.
  - right. left.
  - now left.
Defined.

(** ** The main workflow *)

Lemma api_calls_app (evs evs' : list event) :
  api_calls (evs ++ evs')%list = (api_calls evs ++ api_calls evs')%list.
Proof. apply List.filter_app. Qed.

Lemma api_calls_result_lines (l : list video) :
  forall k : nat -> nat,
    api_calls (imap (fun i v => result_line (k i) v) l) = [].
Proof.
  induction l as [| v l IH]; intros k; [reflexivity |].
  cbn [imap api_calls List.filter result_line is_api_call].
  exact (IH (k ∘ S)).
Qed.

(** The Displaying step calls no collaborator. *)
Lemma display_results_calls (E : env) (filtered : list video) :
  exists evs, display_results filtered E = (Ok tt, evs) /\ api_calls evs = [].
Proof.
  eexists. split; [apply display_results_run |].
  change (StSubheader ?t :: ?l) with ([StSubheader t] ++ l)%list.
  assert (Hlines : api_calls (imap result_line (take 5 filtered)) = [])
    by exact (api_calls_result_lines (take 5 filtered) (fun i => i)).
  rewrite !api_calls_app, Hlines.
  destruct (5 <? _)%nat; reflexivity.
Qed.

(** With a query that is not empty, [search_youtube] returns after exactly
    one search call. *)
Lemma search_youtube_calls (E : env) (query : string) :
  query <> "" ->
  exists ids evs,
    search_youtube query E = (Ok ids, evs)
    /\ api_calls evs = [YoutubeSearch (request_of E query)].
Proof.
  intros Hq. destruct query as [| c q]; [congruence |].
  rewrite search_youtube_run.
  destruct (youtube_search E _) as [results | e];
    [destruct (mapM video_id_of _) |]; eexists _, _; split; reflexivity.
Qed.

(** With identifiers, [filter_videos] returns after exactly one metadata
    call. *)
Lemma filter_videos_calls (E : env) (ids : list string) :
  ids <> [] ->
  exists out evs,
    filter_videos ids E = (Ok out, evs)
    /\ api_calls evs
       = [YoutubeVideos "contentDetails,snippet" (join "," ids)].
Proof.
  intros Hne. destruct ids as [| id ids]; [congruence |].
  unfold filter_videos, videos_list.
  destruct (youtube_videos E _ _) as [details | e].
  - destruct (filter_loop E _ []) as [[[] | e] filtered];
      eexists _, _; split; reflexivity.
  - eexists _, _. split; reflexivity.
Qed.

(** [select_best_video] never raises and calls the model at most once. *)
Lemma select_best_video_calls (E : env) (videos : list video)
    (query : string) :
  exists best evs,
    select_best_video videos query E = (Ok best, evs)
    /\ (evs = []
        \/ evs = [GenerateContent model_name (prompt_of videos query)]).
Proof.
  destruct videos as [| v vs]; [exists None, []; split; [reflexivity | now left] |].
  destruct query as [| c q].
  - exists (Some v), []. split; [reflexivity | now left].
  - eexists _, _. split; [apply select_best_video_run | now right].
Qed.

(** X4. The main workflow never raises, and it calls each collaborator at
    most once, in this order: the search, then the metadata for the
    identifiers found, then the model for the records kept.  A later call
    is never made without the earlier ones. *)
Theorem main_workflow_calls (E : env) (query : string) :
  exists evs ids filtered,
    main_workflow query E = (Ok tt, evs)
    /\ (search_youtube query E).1 = Ok ids
    /\ (filter_videos ids E).1 = Ok filtered
    /\ api_calls evs
       `prefix_of` [YoutubeSearch (request_of E query);
                    YoutubeVideos "contentDetails,snippet" (join "," ids);
                    GenerateContent model_name (prompt_of filtered query)].
Proof.
  destruct query as [| c q].
  { exists [], [], []. repeat split; try reflexivity. apply prefix_nil. }
  destruct (search_youtube_calls E (String c q)) as (ids & evs1 & Hs & Hc1);
    [congruence |].
  destruct ids as [| id ids].
  { eexists _, [], []. unfold main_workflow, mbind, M_bind. rewrite Hs.
    cbn iota. unfold emit. split; [reflexivity |].
    split; [reflexivity |]. split; [reflexivity |].
    rewrite !api_calls_app, Hc1. eexists. reflexivity. }
  destruct (filter_videos_calls E (id :: ids)) as (filtered & evs2 & Hf & Hc2);
    [congruence |].
  exists ((main_workflow (String c q) E).2), (id :: ids), filtered.
  rewrite Hs, Hf. cbn [fst].
  unfold main_workflow, mbind, M_bind. rewrite Hs. cbn iota. rewrite Hf.
  destruct filtered as [| v vs]; cbn iota.
  { unfold emit. cbn [fst snd]. split; [reflexivity |].
    split; [reflexivity |]. split; [reflexivity |].
    rewrite !api_calls_app, Hc1, Hc2. eexists. reflexivity. }
  destruct (display_results_calls E (v :: vs)) as (evs3 & Hd & Hc3).
  rewrite Hd, select_best_video_run. unfold emit. cbn iota. cbn [fst snd].
  split; [reflexivity |]. split; [reflexivity |]. split; [reflexivity |].
  rewrite !api_calls_app, Hc1, Hc2, Hc3. exists []. reflexivity.
Qed.

(** X5. When the search yields no identifier (a failed call, an empty
    response or a malformed item), the workflow shows "No videos found."
    and stops: no metadata call and no model call is made. *)
Theorem main_workflow_no_results (E : env) (query : string)
    (evs1 : list event) :
  query <> "" ->
  search_youtube query E = (Ok [], evs1) ->
  exists evs,
    main_workflow query E = (Ok tt, evs)
    /\ evs = (StSpinner "🔍 Searching YouTube..." :: evs1
              ++ [StWarning "No videos found."])%list
    /\ api_calls evs = [YoutubeSearch (request_of E query)].
Proof.
  intros Hq Hs. destruct query as [| c q]; [congruence |].
  destruct (search_youtube_calls E (String c q)) as (ids & evs' & Hs' & Hc);
    [congruence |].
  rewrite Hs in Hs'. injection Hs' as <- <-.
  eexists. split; [| split; [reflexivity |]].
  - unfold main_workflow, mbind, M_bind. rewrite Hs. reflexivity.
  - change (?a :: ?l ++ ?b)%list with ([a] ++ l ++ b)%list.
    rewrite !api_calls_app, Hc. reflexivity.
Qed.

(** The theorem at work: a search call that raises. *)
Lemma main_workflow_no_results_witness :
  exists evs,
    main_workflow "lofi" failing_env = (Ok tt, evs)
    /\ evs = [StSpinner "🔍 Searching YouTube...";
              YoutubeSearch (request_of failing_env "lofi");
              StError [Txt "API Error: "; Exc (OtherError "HttpError 403")];
              StWarning "No videos found."]
    /\ api_calls evs = [YoutubeSearch (request_of failing_env "lofi")].
Proof.
  apply (main_workflow_no_results failing_env "lofi"
           [YoutubeSearch (request_of failing_env "lofi");
            StError [Txt "API Error: "; Exc (OtherError "HttpError 403")]]).
  - discriminate.
  - reflexivity.
Defined.

(** X6. When the filter keeps no record (no item in the window, or a
    failure before the first one), the workflow shows "No videos in the
    4–20 min range." and stops: the model is never called. *)
Theorem main_workflow_no_matches (E : env) (query : string)
    (ids : list string) (evs1 evs2 : list event) :
  query <> "" ->
  search_youtube query E = (Ok ids, evs1) ->
  ids <> [] ->
  filter_videos ids E = (Ok [], evs2) ->
  exists evs,
    main_workflow query E = (Ok tt, evs)
    /\ evs = (StSpinner "🔍 Searching YouTube..." :: evs1
              ++ StSpinner "⏱️ Filtering by duration (4–20 min)..." :: evs2
              ++ [StWarning "No videos in the 4–20 min range."])%list
    /\ api_calls evs
       = [YoutubeSearch (request_of E query);
          YoutubeVideos "contentDetails,snippet" (join "," ids)].
Proof.
  intros Hq Hs Hids Hf. destruct query as [| c q]; [congruence |].
  destruct (search_youtube_calls E (String c q)) as (ids' & evs' & Hs' & Hc1);
    [congruence |].
  rewrite Hs in Hs'. injection Hs' as <- <-.
  destruct (filter_videos_calls E ids Hids) as (out & evs'' & Hf' & Hc2).
  rewrite Hf in Hf'. injection Hf' as <- <-.
  destruct ids as [| id ids]; [congruence |].
  eexists. split; [| split; [reflexivity |]].
  - unfold main_workflow, mbind, M_bind. rewrite Hs. cbn iota. rewrite Hf.
    cbn iota. unfold emit. reflexivity.
  - change (?a :: ?l ++ ?b :: ?l' ++ ?k)%list
      with ([a] ++ l ++ [b] ++ l' ++ k)%list.
    rewrite !api_calls_app, Hc1, Hc2. reflexivity.
Qed.

(** The theorem at work: the only video found lasts 25 minutes. *)
Lemma main_workflow_no_matches_witness :
  let E := sample_videos_env [item_of "b" "PT25M" "B"] in
  exists evs,
    main_workflow "lofi" E = (Ok tt, evs)
    /\ evs = [StSpinner "🔍 Searching YouTube...";
              YoutubeSearch (request_of E "lofi");
              StSpinner "⏱️ Filtering by duration (4–20 min)...";
              YoutubeVideos "contentDetails,snippet" "a";
              StWarning "No videos in the 4–20 min range."]
    /\ api_calls evs
       = [YoutubeSearch (request_of E "lofi");
          YoutubeVideos "contentDetails,snippet" "a"].
Proof.
  intros E.
  apply (main_workflow_no_matches E "lofi" ["a"]
           [YoutubeSearch (request_of E "lofi")]
           [YoutubeVideos "contentDetails,snippet" "a"]).
  - discriminate.
  - reflexivity.
  - discriminate.
  - reflexivity.
Defined.

(** ** Durations written in decimal *)

Arguments string_of_nat : simpl never.

(** The decimal digits of a number are never none. *)
Lemma to_uint_not_nil (n : nat) : Nat.to_uint n <> Decimal.Nil.
Proof.
  rewrite <- (DecimalNat.Unsigned.of_to n) at 1.
  rewrite DecimalNat.Unsigned.to_of. apply DecimalFacts.unorm_nonnil.
Qed.

(** Reading digits stops at the first character that is no digit. *)
Lemma digits_uint (d : Decimal.uint) (c : ascii) (rest : string) :
  is_digit c = false ->
  digits (NilEmpty.string_of_uint d ++ String c rest)
  = (list_ascii_of_string (NilEmpty.string_of_uint d), String c rest).
Proof.
  intros Hc. induction d; cbn [NilEmpty.string_of_uint append digits list_ascii_of_string];
    [now rewrite Hc | ..].
    all: change (is_digit _) with true; cbn iota; rewrite IHd; reflexivity.
Qed.

(** The value read from decimal digits is the number they write. *)
Lemma decimal_value_uint (d : Decimal.uint) :
  forall acc : nat,
    fold_left (fun a c => a * 10 + digit_value c)%Z
      (list_ascii_of_string (NilEmpty.string_of_uint d)) (Z.of_nat acc)
    = Z.of_nat (Nat.of_uint_acc d acc).
Proof.
  induction d; intros acc;
    cbn [NilEmpty.string_of_uint list_ascii_of_string fold_left
         Nat.of_uint_acc]; [reflexivity | ..];
    rewrite <- IHd; f_equal; rewrite Nat.tail_mul_spec;
    match goal with |- context [digit_value ?c] =>
      let v := eval vm_compute in (digit_value c) in
      change (digit_value c) with v
    end; lia.
Qed.

(** Reading back the digits of [n] gives [n]. *)
Lemma decimal_value_string_of_nat (n : nat) :
  decimal_value (list_ascii_of_string (string_of_nat n)) = Z.of_nat n.
Proof.
  unfold decimal_value, string_of_nat.
  change 0%Z with (Z.of_nat 0).
  rewrite (decimal_value_uint (Nat.to_uint n) 0).
  change (Nat.of_uint_acc (Nat.to_uint n) 0) with (Nat.of_uint (Nat.to_uint n)).
  now rewrite DecimalNat.Unsigned.of_to.
Qed.

(** A component written as a number and its designator is read back. *)
Lemma component_string_of_nat (x : ascii) (n : nat) (rest : string) :
  is_digit x = false ->
  Isodate.is_fraction_mark x = false ->
  Isodate.component x (string_of_nat n ++ String x rest)
  = (inject_Z (Z.of_nat n), rest).
Proof.
  intros Hd Hf. unfold Isodate.component, Isodate.number, string_of_nat.
  rewrite (digits_uint (Nat.to_uint n) x rest Hd).
  fold (string_of_nat n).
  destruct (list_ascii_of_string (string_of_nat n)) eqn:Hcs.
  - exfalso. unfold string_of_nat in Hcs.
    pose proof (to_uint_not_nil n) as Hn.
    destruct (Nat.to_uint n); try discriminate Hcs. congruence.
  - rewrite Hf, <- Hcs, decimal_value_string_of_nat, Ascii.eqb_refl.
    reflexivity.
Qed.


(** The period pattern reads the three components of [iso_hms]. *)
Lemma period_match_iso_hms (h m s : nat) :
  Isodate.period_match (iso_hms h m s)
  = Some {| Isodate.sign := None; Isodate.years := 0; Isodate.months := 0;
            Isodate.weeks := 0; Isodate.days := 0;
            Isodate.hours := inject_Z (Z.of_nat h);
            Isodate.minutes := inject_Z (Z.of_nat m);
            Isodate.seconds := inject_Z (Z.of_nat s) |}.
Proof.
  unfold iso_hms. cbn [append].
  unfold Isodate.period_match.
  change (("P" =? "+")%char || ("P" =? "-")%char) with false.
  cbn iota beta.
  change (Isodate.not_at_boundary (String "T" ?r)) with true.
  cbn iota beta.
  change (Isodate.component "Y" (String "T" ?r)) with (0%Q, String "T" r).
  cbn iota beta.
  change (Isodate.component "M" (String "T" ?r)) with (0%Q, String "T" r).
  cbn iota beta.
  change (Isodate.component "W" (String "T" ?r)) with (0%Q, String "T" r).
  cbn iota beta.
  change (Isodate.component "D" (String "T" ?r)) with (0%Q, String "T" r).
  cbn iota beta.
  rewrite !component_string_of_nat by reflexivity.
  reflexivity.
Qed.

(** ** The filter on whole batches *)

(** When no item raises, the loop ends normally and every record built is
    in the list returned. *)
Lemma filter_loop_no_raise (E : env) (items : list video_item) :
  Forall (fun item => exists r, filter_item E item = Ok r) items ->
  forall filtered, exists out,
    filter_loop E items filtered = (Ok tt, (filtered ++ out)%list)
    /\ (forall item r,
          item ∈ items -> filter_item E item = Ok (Some r) -> r ∈ out).
Proof.
  induction 1 as [| item items [r0 Hitem] _ IH]; intros filtered.
  - exists []. rewrite app_nil_r. split; [reflexivity |].
    intros item r Hin. inversion Hin.
  - cbn [filter_loop]. rewrite Hitem. destruct r0 as [r0 |].
    + destruct (IH (filtered ++ [r0])%list) as (out & Hrun & Hall).
      exists (r0 :: out). split.
      * rewrite Hrun, <- app_assoc. reflexivity.
      * intros item' r Hin Hr. apply elem_of_cons in Hin as [-> | Hin].
        -- rewrite Hitem in Hr. injection Hr as <-. left.
        -- right. now apply (Hall item').
    + destruct (IH filtered) as (out & Hrun & Hall).
      exists out. split; [exact Hrun |].
      intros item' r Hin Hr. apply elem_of_cons in Hin as [-> | Hin].
      * rewrite Hitem in Hr. discriminate.
      * now apply (Hall item').
Qed.

(** An exception in an item ends the batch with the records accumulated
    before it. *)
Lemma filter_videos_abort (E : env) (ids : list string)
    (details : videos_response) (pre post : list video_item)
    (item : video_item) (acc : list video) (e : exn) :
  ids <> [] ->
  youtube_videos E "contentDetails,snippet" (join "," ids) = Ok details ->
  vr_items details = Some (pre ++ item :: post)%list ->
  filter_loop E pre [] = (Ok tt, acc) ->
  filter_item E item = Raise e ->
  filter_videos ids E
  = (Ok acc, [YoutubeVideos "contentDetails,snippet" (join "," ids);
              StError [Txt "Duration Filter Error: "; Exc e]]).
Proof.
  intros Hne Hcall Hitems Hpre Hitem. destruct ids as [| id ids]; [congruence |].
  unfold filter_videos, videos_list. rewrite Hcall, Hitems. simpl default.
  rewrite (filter_loop_app E pre (item :: post) [] acc Hpre).
  cbn [filter_loop]. now rewrite Hitem.
Qed.

(** X7. When no item of the response raises, the batch is processed to its
    end: no error is shown and every item in the window has its record in
    the output. *)
Theorem filter_videos_complete (E : env) (ids : list string)
    (details : videos_response) :
  ids <> [] ->
  youtube_videos E "contentDetails,snippet" (join "," ids) = Ok details ->
  Forall (fun item => exists r, filter_item E item = Ok r)
    (default [] (vr_items details)) ->
  exists out,
    filter_videos ids E
    = (Ok out, [YoutubeVideos "contentDetails,snippet" (join "," ids)])
    /\ (forall item r,
          item ∈ default [] (vr_items details) ->
          filter_item E item = Ok (Some r) -> r ∈ out).
Proof.
  intros Hne Hcall Hall. destruct ids as [| id ids]; [congruence |].
  destruct (filter_loop_no_raise E _ Hall []) as (out & Hrun & Hin).
  exists out. split; [| exact Hin].
  unfold filter_videos, videos_list. rewrite Hcall, Hrun. reflexivity.
Qed.

(** The theorem at work: three well-formed items, two of them in the
    window. *)
Lemma filter_videos_complete_witness :
  let E := sample_videos_env (take 3 sample_items) in
  exists out,
    filter_videos ["a"; "b"; "c"] E
    = (Ok out, [YoutubeVideos "contentDetails,snippet" "a,b,c"])
    /\ (forall item r,
          item ∈ take 3 sample_items ->
          filter_item E item = Ok (Some r) -> r ∈ out).
Proof.
  intros E.
  apply (filter_videos_complete E ["a"; "b"; "c"]
           {| vr_items := Some (take 3 sample_items) |}).
  - discriminate.
  - reflexivity.
  - repeat (apply List.Forall_cons; [eexists; reflexivity |]).
    apply List.Forall_nil.
Defined.

(** X8. The title and the identifier of an item are read only when its
    duration is in the window: an item outside the window leaves the
    result of the loop as it is without the item, whatever its other
    keys. *)
Theorem filter_loop_skips_outside_window (E : env)
    (pre post : list video_item) (item : video_item)
    (cd : content_details) (iso : string) (dur : Q)
    (filtered : list video) :
  item_contentDetails item = Some cd ->
  cd_duration cd = Some iso ->
  parse_duration E iso = Ok dur ->
  (dur < 4 \/ 20 < dur)%Q ->
  filter_loop E (pre ++ item :: post)%list filtered
  = filter_loop E (pre ++ post)%list filtered.
Proof.
  intros Hcd Hiso Hparse Hout.
  assert (Hitem : filter_item E item = Ok None).
  { unfold filter_item, mbind, outcome_bind.
    rewrite Hcd. cbn [getitem obind]. rewrite Hiso. cbn [getitem obind].
    rewrite Hparse. cbn [obind].
    destruct (Qle_bool 4 dur && Qle_bool dur 20) eqn:Hw; [| reflexivity].
    apply andb_prop in Hw as [H4 H20]. apply Qle_bool_iff in H4, H20.
    destruct Hout as [Hlt | Hlt]; [apply Qlt_not_le in Hlt | apply Qlt_not_le in Hlt];
      contradiction. }
  revert filtered. induction pre as [| x pre IH]; intros filtered.
  - cbn [app filter_loop]. now rewrite Hitem.
  - cbn [app filter_loop]. destruct (filter_item E x) as [[r |] | e];
      [apply IH | apply IH | reflexivity].
Qed.

(** The theorem at work: a video of 25 minutes without title and
    identifier, between two videos in the window. *)
Lemma filter_loop_skips_outside_window_witness :
  let E := sample_videos_env [] in
  filter_loop E [item_of "a" "PT5M30S" "A"; bare_long_item;
                 item_of "c" "PT4M" "C"] []
  = filter_loop E [item_of "a" "PT5M30S" "A"; item_of "c" "PT4M" "C"] [].
Proof.
  intros E.
  eapply (filter_loop_skips_outside_window E [item_of "a" "PT5M30S" "A"]
            [item_of "c" "PT4M" "C"] bare_long_item).
  - reflexivity.
  - reflexivity.
  - reflexivity.
  - right. reflexivity.
Defined.

(** X9. An item without [contentDetails] or [duration], and an item in the
    window without [snippet], [title] or [id], ends the batch: the records
    accumulated before it are returned and the [KeyError] is shown. *)
Theorem filter_videos_missing_key (E : env) (ids : list string)
    (details : videos_response) (pre post : list video_item)
    (item : video_item) (acc : list video) :
  ids <> [] ->
  youtube_videos E "contentDetails,snippet" (join "," ids) = Ok details ->
  vr_items details = Some (pre ++ item :: post)%list ->
  filter_loop E pre [] = (Ok tt, acc) ->
  (item_contentDetails item = None
   \/ (exists cd, item_contentDetails item = Some cd /\ cd_duration cd = None)
   \/ (exists cd iso dur,
         item_contentDetails item = Some cd /\ cd_duration cd = Some iso
         /\ parse_duration E iso = Ok dur /\ (4 <= dur)%Q /\ (dur <= 20)%Q
         /\ (item_snippet item = None
             \/ (exists sn, item_snippet item = Some sn /\ sn_title sn = None)
             \/ item_id item = None))) ->
  exists key,
    filter_videos ids E
    = (Ok acc, [YoutubeVideos "contentDetails,snippet" (join "," ids);
                StError [Txt "Duration Filter Error: ";
                         Exc (KeyError key)]]).
Proof.
  intros Hne Hcall Hitems Hpre Hbad.
  assert (Hitem : exists key, filter_item E item = Raise (KeyError key)).
  { unfold filter_item, mbind, outcome_bind.
    destruct Hbad as [Hcd | [(cd & Hcd & Hiso) | Hkeys]].
    - rewrite Hcd. eexists. reflexivity.
    - rewrite Hcd. cbn [getitem obind]. rewrite Hiso. eexists. reflexivity.
    - destruct Hkeys as (cd & iso & dur & Hcd & Hiso & Hparse & H4 & H20 & Hk).
      rewrite Hcd. cbn [getitem obind]. rewrite Hiso. cbn [getitem obind].
      rewrite Hparse. cbn [obind].
      apply Qle_bool_iff in H4, H20. rewrite H4, H20. cbn [andb].
      destruct Hk as [Hsn | [(sn & Hsn & Ht) | Hid]].
      + rewrite Hsn. eexists. reflexivity.
      + rewrite Hsn. cbn [getitem obind]. rewrite Ht. eexists. reflexivity.
      + destruct (item_snippet item) as [sn |]; cbn [getitem obind];
          [| eexists; reflexivity].
        destruct (sn_title sn); cbn [getitem obind]; [| eexists; reflexivity].
        rewrite Hid. eexists. reflexivity. }
  destruct Hitem as [key Hitem]. exists key.
  now apply (filter_videos_abort E ids details pre post item acc).
Qed.

(** The theorem at work: the second item is in the window and has no
    title. *)
Lemma filter_videos_missing_key_witness :
  let E := sample_videos_env
             [item_of "a" "PT5M30S" "A"; untitled_item;
              item_of "c" "PT4M" "C"] in
  exists key,
    filter_videos ["a"; "u"; "c"] E
    = (Ok (take 1 sample_videos),
       [YoutubeVideos "contentDetails,snippet" "a,u,c";
        StError [Txt "Duration Filter Error: "; Exc (KeyError key)]]).
Proof.
  intros E.
  eapply (filter_videos_missing_key E ["a"; "u"; "c"] _
            [item_of "a" "PT5M30S" "A"] [item_of "c" "PT4M" "C"]
            untitled_item).
  - discriminate.
  - reflexivity.
  - reflexivity.
  - reflexivity.
  - right. right. eexists _, _, _.
    split; [reflexivity |]. split; [reflexivity |]. split; [reflexivity |].
    split; [discriminate |]. split; [discriminate |].
    right. left. eexists. split; reflexivity.
Defined.

(** Rounding gives the same result on equal rationals. *)
Lemma py_round_comp (x y : Q) (n : nat) :
  (x == y)%Q -> py_round x n = py_round y n.
Proof.
  intros Hxy. unfold py_round, round_half_even.
  set (scale := inject_Z (10 ^ Z.of_nat n)).
  assert (Hs : (x * scale == y * scale)%Q) by now rewrite Hxy.
  rewrite (Qfloor_comp _ _ Hs).
  assert (Hc : (x * scale - inject_Z (Qfloor (y * scale)) ?= 1 # 2)%Q
               = (y * scale - inject_Z (Qfloor (y * scale)) ?= 1 # 2)%Q)
    by now rewrite Hs.
  now rewrite Hc.
Qed.

(** The length of a duration written with [iso_hms], in minutes. *)
Lemma parse_duration_iso_hms (E : env) (h m s : nat) :
  (Z.of_nat (3600 * h + 60 * m + s) < 86400000000000)%Z ->
  exists dur,
    parse_duration E (iso_hms h m s) = Ok dur
    /\ (dur == Z.of_nat (3600 * h + 60 * m + s) # 60)%Q.
Proof.
  intros Hrange.
  set (g := {| Isodate.sign := None; Isodate.years := 0; Isodate.months := 0;
               Isodate.weeks := 0; Isodate.days := 0;
               Isodate.hours := inject_Z (Z.of_nat h);
               Isodate.minutes := inject_Z (Z.of_nat m);
               Isodate.seconds := inject_Z (Z.of_nat s) |}).
  assert (Hsec : (seconds_of g
                  == inject_Z (Z.of_nat (3600 * h + 60 * m + s)))%Q).
  { unfold seconds_of, g. cbn [Isodate.weeks Isodate.days Isodate.hours
                                 Isodate.minutes Isodate.seconds].
    rewrite !Nat2Z.inj_add, !Nat2Z.inj_mul, !inject_Z_plus, !inject_Z_mult.
    change (inject_Z (Z.of_nat 3600)) with 3600%Q.
    change (inject_Z (Z.of_nat 60)) with 60%Q. ring. }
  assert (Hwhole : (Isodate.round_microseconds (seconds_of g)
                    == inject_Z (Z.of_nat (3600 * h + 60 * m + s)))%Q).
  { rewrite <- Hsec.
    apply (round_microseconds_whole _
             (Z.of_nat (3600 * h + 60 * m + s) * 1000000)).
    rewrite Hsec, inject_Z_mult. reflexivity. }
  exists (Isodate.round_microseconds (seconds_of g) / 60)%Q. split.
  - unfold parse_duration, Isodate.parse_duration, mbind, outcome_bind.
    rewrite period_match_iso_hms. fold g.
    unfold Isodate.make_timedelta, Isodate.check_range. fold (seconds_of g).
    assert (Hin : Isodate.in_range
                    (Isodate.round_microseconds (seconds_of g)) = true).
    { unfold Isodate.in_range. rewrite Hwhole. apply andb_true_intro. split.
      - apply Qle_bool_iff. unfold Qle, inject_Z. simpl. lia.
      - apply negb_true_iff.
        destruct (Qle_bool _ _) eqn:Hle; [| reflexivity].
        apply Qle_bool_iff in Hle. unfold Qle, inject_Z in Hle. simpl in Hle.
        lia. }
    rewrite Hin. reflexivity.
  - rewrite Hwhole. unfold Qeq, Qdiv, Qmult, Qinv, inject_Z. simpl. lia.
Qed.

(** The loop body on the item of a clip. *)
Lemma filter_item_clip (E : env) (c : clip) :
  (Z.of_nat (clip_length c) < 86400000000000)%Z ->
  filter_item E (item_of_clip c) = Ok (record_of_clip c).
Proof.
  intros Hrange.
  destruct (parse_duration_iso_hms E (clip_hours c) (clip_minutes c)
              (clip_seconds c) Hrange) as (dur & Hparse & Hdur).
  fold (clip_length c) in Hdur.
  unfold filter_item, item_of_clip, item_of, mbind, outcome_bind.
  cbn [item_contentDetails cd_duration item_snippet sn_title item_id
       getitem obind].
  rewrite Hparse. cbn [obind]. unfold record_of_clip.
  rewrite (py_round_comp dur _ 2 Hdur).
  assert (H4 : Qle_bool 4 dur = (240 <=? clip_length c)%nat).
  { rewrite Hdur. destruct (Nat.leb_spec 240 (clip_length c)).
    - apply Qle_bool_iff. unfold Qle. simpl. lia.
    - apply not_true_is_false. intros Hle.
      apply Qle_bool_iff in Hle. unfold Qle in Hle. simpl in Hle. lia. }
  assert (H20 : Qle_bool dur 20 = (clip_length c <=? 1200)%nat).
  { rewrite Hdur. destruct (Nat.leb_spec (clip_length c) 1200).
    - apply Qle_bool_iff. unfold Qle. simpl. lia.
    - apply not_true_is_false. intros Hle.
      apply Qle_bool_iff in Hle. unfold Qle in Hle. simpl in Hle. lia. }
  rewrite H4, H20.
  destruct ((240 <=? clip_length c)%nat && (clip_length c <=? 1200)%nat);
    reflexivity.
Qed.

(** X10. On a response whose items are well formed, with durations written
    as hours, minutes and seconds, [filter_videos] returns exactly the
    videos that last from 240 to 1200 seconds, bounds included, in the
    order of the response, each with its title, its watch address and its
    length in minutes rounded to two decimals; no error is shown. *)
Theorem filter_videos_clips (E : env) (ids : list string)
    (details : videos_response) (clips : list clip) :
  ids <> [] ->
  youtube_videos E "contentDetails,snippet" (join "," ids) = Ok details ->
  default [] (vr_items details) = map item_of_clip clips ->
  Forall (fun c => (Z.of_nat (clip_length c) < 86400000000000)%Z) clips ->
  filter_videos ids E
  = (Ok (omap record_of_clip clips),
     [YoutubeVideos "contentDetails,snippet" (join "," ids)]).
Proof.
  intros Hne Hcall Hitems Hall. destruct ids as [| id ids]; [congruence |].
  assert (Hloop : forall filtered,
            filter_loop E (map item_of_clip clips) filtered
            = (Ok tt, (filtered ++ omap record_of_clip clips)%list)).
  { clear - Hall. induction Hall as [| c clips Hc _ IH]; intros filtered.
    - cbn. now rewrite app_nil_r.
    - cbn [map filter_loop]. rewrite (filter_item_clip E c Hc).
      change (omap record_of_clip (c :: clips))
        with (match record_of_clip c with
              | Some r => r :: omap record_of_clip clips
              | None => omap record_of_clip clips
              end).
      destruct (record_of_clip c) as [r |].
      + rewrite IH, <- app_assoc. reflexivity.
      + apply IH. }
  unfold filter_videos, videos_list. rewrite Hcall, Hitems, Hloop.
  reflexivity.
Qed.

(** The theorem at work: videos of 5:30, 25:00, 4:00 and 20:01. *)
Lemma filter_videos_clips_witness :
  filter_videos ["a"; "b"; "c"; "d"]
    (sample_videos_env (map item_of_clip sample_clips))
  = (Ok sample_videos,
     [YoutubeVideos "contentDetails,snippet" "a,b,c,d"]).
Proof.
  apply (filter_videos_clips
           (sample_videos_env (map item_of_clip sample_clips))
           ["a"; "b"; "c"; "d"]
           {| vr_items := Some (map item_of_clip sample_clips) |}
           sample_clips).
  - discriminate.
  - reflexivity.
  - reflexivity.
  - repeat (apply List.Forall_cons; [reflexivity |]). apply List.Forall_nil.
Defined.

(** ** The reply of the model, written in decimal *)

Lemma lstrip_padding (ws s : string) :
  all_space ws = true -> lstrip (ws ++ s) = lstrip s.
Proof.
  induction ws as [| c ws IH]; intros Hws; [reflexivity |].
  cbn [all_space] in Hws. apply andb_prop in Hws as [Hc Hws].
  cbn [append lstrip]. rewrite Hc. now apply IH.
Qed.

Lemma rstrip_all_space (ws : string) :
  all_space ws = true -> rstrip ws = "".
Proof.
  induction ws as [| c ws IH]; intros Hws; [reflexivity |].
  cbn [all_space] in Hws. apply andb_prop in Hws as [Hc Hws].
  cbn [rstrip]. rewrite (IH Hws), Hc. reflexivity.
Qed.

Lemma rstrip_padding (s ws : string) :
  all_space ws = true -> rstrip (s ++ ws) = rstrip s.
Proof.
  intros Hws. induction s as [| c s IH].
  - cbn [append]. now rewrite rstrip_all_space.
  - cbn [append rstrip]. now rewrite IH.
Qed.

(** Decimal digits hold no white space: stripping leaves them alone. *)
Lemma rstrip_uint (d : Decimal.uint) :
  rstrip (NilEmpty.string_of_uint d) = NilEmpty.string_of_uint d.
Proof.
  induction d; cbn [NilEmpty.string_of_uint rstrip]; [reflexivity | ..];
    rewrite IHd; reflexivity.
Qed.

Lemma lstrip_uint (d : Decimal.uint) (rest : string) :
  d <> Decimal.Nil ->
  lstrip (NilEmpty.string_of_uint d ++ rest)
  = NilEmpty.string_of_uint d ++ rest.
Proof.
  intros Hd. destruct d; [congruence | ..]; reflexivity.
Qed.

(** A number written in decimal between white space is what [strip]
    leaves. *)
Lemma strip_padded_number (ws1 ws2 : string) (n : nat) :
  all_space ws1 = true -> all_space ws2 = true ->
  strip (ws1 ++ string_of_nat n ++ ws2) = string_of_nat n.
Proof.
  intros H1 H2. unfold strip, string_of_nat.
  rewrite (lstrip_padding ws1 _ H1).
  rewrite (lstrip_uint _ _ (to_uint_not_nil n)).
  rewrite (rstrip_padding _ ws2 H2). apply rstrip_uint.
Qed.

Lemma int_digits_uint (d : Decimal.uint) :
  forall (acc : nat) (after_digit : bool),
    after_digit = true \/ d <> Decimal.Nil ->
    int_digits (NilEmpty.string_of_uint d) (Z.of_nat acc) after_digit
    = Some (Z.of_nat (Nat.of_uint_acc d acc)).
Proof.
  induction d; intros acc after_digit Hd;
    cbn [NilEmpty.string_of_uint int_digits Nat.of_uint_acc];
    [destruct Hd as [-> | Hd]; [reflexivity | congruence] | ..];
    match goal with |- (if is_digit ?c then _ else _) = _ =>
      change (is_digit c) with true
    end; cbn iota;
    match goal with |- context [digit_value ?c] =>
      let v := eval vm_compute in (digit_value c) in
      change (digit_value c) with v
    end;
    rewrite <- (IHd _ true) by (now left);
    f_equal; rewrite Nat.tail_mul_spec; lia.
Qed.

(** [int] reads back a number written in decimal. *)
Lemma py_int_string_of_nat (n : nat) :
  py_int (string_of_nat n) = Ok (Z.of_nat n).
Proof.
  unfold py_int.
  replace (strip (string_of_nat n)) with (string_of_nat n).
  2:{ unfold strip, string_of_nat.
      replace (lstrip (NilEmpty.string_of_uint (Nat.to_uint n)))
        with (NilEmpty.string_of_uint (Nat.to_uint n))
        by (destruct (Nat.to_uint n); reflexivity).
      now rewrite rstrip_uint. }
  unfold string_of_nat. pose proof (to_uint_not_nil n) as Hn.
  pose proof (int_digits_uint (Nat.to_uint n) 0 false (or_intror Hn)) as Hd.
  change (Nat.of_uint_acc (Nat.to_uint n) 0)
    with (Nat.of_uint (Nat.to_uint n)) in Hd.
  rewrite DecimalNat.Unsigned.of_to in Hd. change (Z.of_nat 0) with 0%Z in Hd.
  destruct (Nat.to_uint n); [congruence | ..];
    cbn [NilEmpty.string_of_uint] in *; cbn iota beta; now rewrite Hd.
Qed.

Lemma map_imap_pair {A B} (f : nat -> A -> B) (l : list A) :
  forall g : nat -> nat,
    map (fun '(i, x) => f i x) (imap (fun i y => (g i, y)) l)
    = imap (fun i y => f (g i) y) l.
Proof.
  induction l as [| x l IH]; intros g; [reflexivity |].
  cbn [imap map]. f_equal. exact (IH (g ∘ S)).
Qed.

Lemma map_enumerate {A B} (f : nat -> A -> B) (l : list A) :
  map (fun '(i, x) => f i x) (enumerate l) = imap f l.
Proof. exact (map_imap_pair f l (fun i => i)). Qed.

(** X11. When the model replies with the number [k] of a listed video,
    written in decimal and possibly surrounded by white space,
    [select_best_video] returns the video that the prompt lists under the
    number [k]. *)
Theorem select_best_video_decimal_reply (E : env) (videos : list video)
    (query ws1 ws2 : string) (k : nat) :
  videos <> [] ->
  query <> "" ->
  all_space ws1 = true ->
  all_space ws2 = true ->
  generate_content E model_name (prompt_of videos query)
  = Ok (ws1 ++ string_of_nat k ++ ws2) ->
  (1 <= k <= List.length videos)%nat ->
  exists v,
    select_best_video videos query E
    = (Ok (Some v), [GenerateContent model_name (prompt_of videos query)])
    /\ videos !! (k - 1)%nat = Some v
    /\ prompt_lines videos !! (k - 1)%nat
       = Some (string_of_nat k ++ ". " ++ title v)
    /\ prompt_of videos query
       = "You're an expert YouTube content curator. Pick the most relevant video to: "
         ++ dquote ++ query ++ dquote ++ newline ++ "Videos:" ++ newline
         ++ join newline (prompt_lines videos) ++ newline
         ++ "Reply ONLY with the number. If none match, reply "
         ++ dquote ++ "0" ++ dquote ++ ".".
Proof.
  intros Hv Hq H1 H2 Hreply Hk.
  destruct videos as [| v0 vs]; [congruence |].
  destruct query as [| c q]; [congruence |].
  destruct (lookup_lt_is_Some_2 (v0 :: vs) (k - 1)) as [v Hv']; [lia |].
  exists v. split; [| split; [exact Hv' | split]].
  - rewrite select_best_video_run. unfold choice_of.
    rewrite Hreply, (strip_padded_number ws1 ws2 k H1 H2),
      py_int_string_of_nat.
    replace (0 <=? Z.of_nat k - 1)%Z with true
      by (symmetry; apply Z.leb_le; lia).
    replace (Z.of_nat k - 1 <? Z.of_nat (List.length (v0 :: vs)))%Z with true
      by (symmetry; apply Z.ltb_lt; lia).
    replace (Z.to_nat (Z.of_nat k - 1)) with (k - 1)%nat by lia.
    rewrite Hv'. reflexivity.
  - unfold prompt_lines. rewrite list_lookup_imap, Hv'. cbn [fmap option_fmap option_map].
    replace (k - 1 + 1)%nat with k by lia. reflexivity.
  - unfold prompt_of, prompt_lines. now rewrite map_enumerate.
Qed.

(** The theorem at work: the reply " 2" followed by a newline. *)
Lemma select_best_video_decimal_reply_witness :
  let E := sample_env (Ok (" " ++ string_of_nat 2 ++ newline)) in
  exists v,
    select_best_video sample_videos "lofi" E
    = (Ok (Some v), [GenerateContent model_name (prompt_of sample_videos "lofi")])
    /\ v = {| title := "C"; url := "https://www.youtube.com/watch?v=c";
              duration := 400 # 100 |}
    /\ prompt_lines sample_videos !! 1%nat = Some "2. C".
Proof.
  intros E.
  destruct (select_best_video_decimal_reply E sample_videos "lofi" " " newline 2)
    as (v & Hrun & Hv & Hline & _).
  - discriminate.
  - discriminate.
  - reflexivity.
  - reflexivity.
  - reflexivity.
  - simpl. lia.
  - exists v. split; [exact Hrun |].
    injection Hv as <-. split; [reflexivity | exact Hline].
Defined.

(** ** Voice input *)

(** X12. Whatever step of the capture raises (opening the microphone,
    calibrating, listening or recognising), [record_voice] returns the
    empty string and shows exactly one message, the one for that
    exception. *)
Theorem record_voice_failure (V : voice_env) (e : voice_exn) :
  voice_enabled V = true ->
  voice_failure V e ->
  exists evs,
    record_voice V = ("", (evs ++ [voice_alert e])%list)
    /\ List.filter is_alert evs = [].
Proof.
  intros Hon Hfail. unfold record_voice, transcribe, capture.
  rewrite Hon. cbn [negb].
  destruct Hfail as [Ho | [[Ho Ha] | [(Ho & Ha & Hl) | (a & Ho & Ha & Hl & Hr)]]];
    rewrite Ho; try rewrite Ha; try rewrite Hl; try rewrite Hr;
    destruct e as [| | e]; eexists; split; reflexivity.
Qed.

(** The theorem at work: nothing is said before the timeout. *)
Lemma record_voice_failure_witness :
  exists evs,
    record_voice (sample_voice (Failed WaitTimeoutError) (Got "lofi"))
    = ("", (evs ++ [Ev (StWarning "⏱ No speech detected within timeout.")])%list)
    /\ List.filter is_alert evs = [].
Proof.
  apply (record_voice_failure
           (sample_voice (Failed WaitTimeoutError) (Got "lofi"))
           WaitTimeoutError).
  - reflexivity.
  - right. right. left. repeat split.
Defined.

(** X13. [record_voice] returns a text that is not empty only as the
    transcription of what was heard, after a single capture (the
    microphone opened and closed once, then the recogniser called once)
    and without any message. *)
Theorem record_voice_transcription (V : voice_env) (query : string)
    (evs : list run_event) :
  record_voice V = (query, evs) ->
  query <> "" ->
  exists a,
    voice_enabled V = true
    /\ listen V = Got a
    /\ recognize_google V a = Got query
    /\ evs = capture_events a.
Proof.
  unfold record_voice, transcribe, capture. intros Hrun Hq.
  destruct (voice_enabled V); cbn [negb] in Hrun;
    [| injection Hrun as <- _; congruence].
  destruct (open_microphone V) as [[] | e];
    [| destruct e; injection Hrun as <- _; congruence].
  destruct (adjust_for_ambient_noise V) as [[] | e];
    [| destruct e; injection Hrun as <- _; congruence].
  destruct (listen V) as [a | e];
    [| destruct e; injection Hrun as <- _; congruence].
  destruct (recognize_google V a) as [text | e] eqn:Hr;
    [| destruct e; injection Hrun as <- _; congruence].
  injection Hrun as <- <-. exists a. now repeat split.
Qed.

(** The theorem at work: a recording recognised as "lofi". *)
Lemma record_voice_transcription_witness :
  exists a,
    voice_enabled (sample_voice (Got "pcm") (Got "lofi")) = true
    /\ listen (sample_voice (Got "pcm") (Got "lofi")) = Got a
    /\ recognize_google (sample_voice (Got "pcm") (Got "lofi")) a = Got "lofi"
    /\ capture_events "pcm" = capture_events a.
Proof.
  apply (record_voice_transcription (sample_voice (Got "pcm") (Got "lofi"))
           "lofi" (capture_events "pcm")).
  - reflexivity.
  - discriminate.
Defined.

(** X14. Once the microphone is open it is closed exactly once, also when
    calibrating or listening raises; it is listened to at most once; and
    the recogniser is called only after the microphone is closed. *)
Theorem record_voice_releases_microphone (V : voice_env) :
  voice_enabled V = true ->
  open_microphone V = Got tt ->
  exists inside after,
    (record_voice V).2 = (MicOpen :: inside ++ MicClose :: after)%list
    /\ (inside = [StInfo "🎙 Speak now... (auto-stops after a pause)";
                  MicAdjust 0.5]
        \/ inside = [StInfo "🎙 Speak now... (auto-stops after a pause)";
                     MicAdjust 0.5; MicListen 5 10])
    /\ Forall (fun ev => (exists a, ev = Recognize a) \/ is_alert ev = true)
         after.
Proof.
  intros Hon Ho. unfold record_voice, transcribe, capture.
  rewrite Hon, Ho. cbn [negb].
  destruct (adjust_for_ambient_noise V) as [[] | e].
  - exists [StInfo "🎙 Speak now... (auto-stops after a pause)";
            MicAdjust 0.5; MicListen 5 10].
    destruct (listen V) as [a | e].
    + destruct (recognize_google V a) as [text | e];
        [| destruct e]; eexists; (split; [reflexivity |]);
        (split; [now right |]); repeat (apply List.Forall_cons;
          [first [left; eexists; reflexivity | right; reflexivity] |]);
        apply List.Forall_nil.
    + destruct e; eexists; (split; [reflexivity |]);
        (split; [now right |]); repeat (apply List.Forall_cons;
          [first [left; eexists; reflexivity | right; reflexivity] |]);
        apply List.Forall_nil.
  - exists [StInfo "🎙 Speak now... (auto-stops after a pause)";
            MicAdjust 0.5].
    destruct e; eexists; (split; [reflexivity |]);
      (split; [now left |]); repeat (apply List.Forall_cons;
          [first [left; eexists; reflexivity | right; reflexivity] |]);
        apply List.Forall_nil.
Qed.

(** The theorem at work: listening raises. *)
Lemma record_voice_releases_microphone_witness :
  let V := sample_voice (Failed (OtherException (OtherError "OSError")))
             (Got "lofi") in
  exists inside after,
    (record_voice V).2 = (MicOpen :: inside ++ MicClose :: after)%list
    /\ (inside = [StInfo "🎙 Speak now... (auto-stops after a pause)";
                  MicAdjust 0.5]
        \/ inside = [StInfo "🎙 Speak now... (auto-stops after a pause)";
                     MicAdjust 0.5; MicListen 5 10])
    /\ Forall (fun ev => (exists a, ev = Recognize a) \/ is_alert ev = true)
         after.
Proof.
  intros V. apply (record_voice_releases_microphone V); reflexivity.
Defined.

(** ** The script as a whole *)

(** The main workflow never raises. *)
Lemma main_workflow_returns (E : env) (query : string) :
  exists evs, main_workflow query E = (Ok tt, evs).
Proof.
  destruct query as [| c q]; [now exists [] |].
  destruct (search_youtube_calls E (String c q)) as (ids & evs1 & Hs & _);
    [congruence |].
  unfold main_workflow, mbind, M_bind. rewrite Hs. cbn iota.
  destruct ids as [| id ids]; [eexists; reflexivity |].
  destruct (filter_videos_calls E (id :: ids)) as (filtered & evs2 & Hf & _);
    [congruence |].
  rewrite Hf. cbn iota.
  destruct filtered as [| v vs]; [eexists; reflexivity |].
  destruct (display_results_calls E (v :: vs)) as (evs3 & Hd & _).
  rewrite Hd, select_best_video_run. eexists. reflexivity.
Qed.

(** [record_voice] calls neither the search, nor the metadata API, nor the
    model. *)
Lemma record_voice_no_api_call (V : voice_env) :
  List.filter calls_api (record_voice V).2 = [].
Proof.
  unfold record_voice, transcribe, capture.
  destruct (voice_enabled V); [| reflexivity]. cbn [negb].
  destruct (open_microphone V) as [[] | e]; [| destruct e; reflexivity].
  destruct (adjust_for_ambient_noise V) as [[] | e];
    [| destruct e; reflexivity].
  destruct (listen V) as [a | e]; [| destruct e; reflexivity].
  destruct (recognize_google V a) as [text | e]; [| destruct e]; reflexivity.
Qed.

(** X15. In Voice mode, when the recording gives no text (a failure of any
    step, or an empty transcription), the script shows "No valid voice
    input detected." and stops: no search, metadata or model call is
    made. *)
Theorem script_voice_without_text (U : widgets) (V : voice_env) (E : env) :
  mode U = VoiceMode ->
  button U = true ->
  (record_voice V).1 = "" ->
  exists evs,
    script U V E = (Ok tt, evs)
    /\ evs = (Ev (StSpinner "🎧 Listening...") :: (record_voice V).2
              ++ [Ev (StWarning "No valid voice input detected.")])%list
    /\ List.filter calls_api evs = [].
Proof.
  intros Hmode Hbutton Hq. eexists. split; [| split; [reflexivity |]].
  - unfold script, acquire_query. rewrite Hmode, Hbutton. cbn [andb].
    destruct (record_voice V) as [query evs]. cbn [fst snd] in *. subst query.
    cbn [main_workflow]. unfold mret, M_ret. cbn [map].
    now rewrite app_nil_r.
  - change (?a :: ?l ++ ?k)%list with ([a] ++ l ++ k)%list.
    rewrite !List.filter_app, record_voice_no_api_call. reflexivity.
Qed.

(** The theorem at work: the recording is not understood. *)
Lemma script_voice_without_text_witness :
  let V := sample_voice (Got "pcm") (Failed UnknownValueError) in
  exists evs,
    script (voice_widgets true) V (sample_env (Ok "1")) = (Ok tt, evs)
    /\ evs = (Ev (StSpinner "🎧 Listening...") :: (record_voice V).2
              ++ [Ev (StWarning "No valid voice input detected.")])%list
    /\ List.filter calls_api evs = [].
Proof.
  intros V.
  apply (script_voice_without_text (voice_widgets true) V (sample_env (Ok "1")));
    reflexivity.
Defined.

(** The part of the script after its start-up never raises; in Text mode
    it uses neither the microphone nor the recogniser, and in Voice mode it
    does nothing until the button is pressed. *)
Lemma script_after_startup (U : widgets) (V : voice_env) (E : env) :
  exists evs,
    script U V E = (Ok tt, evs)
    /\ (mode U = TextMode -> List.filter uses_voice evs = [])
    /\ (mode U = VoiceMode -> button U = false -> evs = []).
Proof.
  unfold script, acquire_query.
  destruct (mode U) eqn:Hmode; cbn [andb].
  - destruct (main_workflow_returns E (text_input U)) as [evs Hrun].
    rewrite Hrun. eexists. split; [reflexivity |].
    split; [| discriminate]. intros _. cbn [app]. clear Hrun.
    induction evs as [| ev evs IH]; [reflexivity | exact IH].
  - destruct (button U).
    + destruct (record_voice V) as [query evs0].
      destruct (main_workflow_returns E query) as [evs Hrun].
      rewrite Hrun. eexists. split; [reflexivity |].
      split; [discriminate | discriminate].
    + eexists. split; [reflexivity |]. split; [discriminate | reflexivity].
Qed.

(** After the imports, a recording always starts with the microphone. *)
Lemma record_voice_after_imports (V : voice_env) :
  exists query rest,
    record_voice (after_imports V) = (query, (MicOpen :: rest)%list).
Proof.
  unfold record_voice, transcribe, capture, after_imports.
  cbn [voice_enabled open_microphone adjust_for_ambient_noise listen
       recognize_google negb].
  destruct (open_microphone V) as [[] | e];
    [| destruct e; eexists _, _; reflexivity].
  destruct (adjust_for_ambient_noise V) as [[] | e];
    [| destruct e; eexists _, _; reflexivity].
  destruct (listen V) as [a | e]; [| destruct e; eexists _, _; reflexivity].
  destruct (recognize_google V a) as [text | e]; [| destruct e];
    eexists _, _; reflexivity.
Qed.

(** X16. The start-up lines decide whether the script runs: when an import
    at its head or the set-up of the clients raises, the script raises
    that exception before it shows anything.  When they go through, the
    script does not raise; in Text mode it uses neither the microphone nor
    the recogniser; in Voice mode it does nothing until the button is
    pressed, and then always starts a recording: the branch of
    [record_voice] for a missing [speech_recognition] is never taken. *)
Theorem streamlit_app_start_and_modes (S : startup) (U : widgets)
    (V : voice_env) (E : env) :
  (forall e, imports S = Raise e -> streamlit_app S U V E = (Raise e, []))
  /\ (forall e,
        imports S = Ok tt -> configure_clients S = Raise e ->
        streamlit_app S U V E = (Raise e, []))
  /\ (imports S = Ok tt -> configure_clients S = Ok tt ->
      exists evs,
        streamlit_app S U V E = (Ok tt, evs)
        /\ (mode U = TextMode -> List.filter uses_voice evs = [])
        /\ (mode U = VoiceMode -> button U = false -> evs = [])
        /\ (mode U = VoiceMode -> button U = true ->
            exists rest,
              evs = (Ev (StSpinner "🎧 Listening...") :: MicOpen :: rest)%list)).
Proof.
  unfold streamlit_app. split; [| split].
  - intros e ->. reflexivity.
  - intros e -> ->. reflexivity.
  - intros -> ->.
    destruct (script_after_startup U (after_imports V) E)
      as (evs & Hrun & Htext & Hidle).
    exists evs. split; [exact Hrun |]. split; [exact Htext |].
    split; [exact Hidle |].
    intros Hmode Hbutton. revert Hrun. unfold script, acquire_query.
    rewrite Hmode, Hbutton. cbn [andb].
    destruct (record_voice_after_imports V) as (query & rest & ->).
    destruct (main_workflow query E) as [r evs'].
    intros Hrun. injection Hrun as _ <-. eexists. reflexivity.
Qed.

(** The theorem at work: a failing import, a missing secret, a query typed
    in Text mode, and Voice mode before and after the button is pressed,
    with a voice environment that claims that the module is missing. *)
Lemma streamlit_app_start_and_modes_witness :
  let V := {| voice_enabled := false;
              open_microphone := Got tt;
              adjust_for_ambient_noise := Got tt;
              listen := Got "pcm";
              recognize_google := fun _ => Got "lofi" |} in
  let E := sample_env (Ok "1") in
  streamlit_app {| imports := Raise (OtherError "ModuleNotFoundError");
         configure_clients := Ok tt |} (text_widgets "lofi") V E
  = (Raise (OtherError "ModuleNotFoundError"), [])
  /\ streamlit_app {| imports := Ok tt;
            configure_clients := Raise (KeyError "GOOGLE_API_KEY") |}
       (text_widgets "lofi") V E
     = (Raise (KeyError "GOOGLE_API_KEY"), [])
  /\ (exists evs,
        streamlit_app good_startup (text_widgets "lofi") V E = (Ok tt, evs)
        /\ List.filter uses_voice evs = [])
  /\ streamlit_app good_startup (voice_widgets false) V E = (Ok tt, [])
  /\ (exists rest,
        streamlit_app good_startup (voice_widgets true) V E
        = (Ok tt, (Ev (StSpinner "🎧 Listening...") :: MicOpen :: rest)%list)).
Proof.
  intros V E. split; [| split; [| split; [| split]]].
  - now apply (proj1 (streamlit_app_start_and_modes _
                        (text_widgets "lofi") V E)).
  - now apply (proj1 (proj2 (streamlit_app_start_and_modes _
                               (text_widgets "lofi") V E))).
  - destruct (proj2 (proj2 (streamlit_app_start_and_modes good_startup
                              (text_widgets "lofi") V E)) eq_refl eq_refl)
      as (evs & Hrun & Htext & _).
    exists evs. split; [exact Hrun | now apply Htext].
  - destruct (proj2 (proj2 (streamlit_app_start_and_modes good_startup
                              (voice_widgets false) V E)) eq_refl eq_refl)
      as (evs & Hrun & _ & Hidle & _).
    rewrite Hrun, Hidle; reflexivity.
  - destruct (proj2 (proj2 (streamlit_app_start_and_modes good_startup
                              (voice_widgets true) V E)) eq_refl eq_refl)
      as (evs & Hrun & _ & _ & Hrec).
    destruct Hrec as [rest ->]; [reflexivity | reflexivity |].
    exists rest. exact Hrun.
Defined.

(** ** Durations read back *)

(** X17. A duration written as [PT<h>H<m>M<s>S] with decimal numbers and
    shorter than 10^9 days is read back as h*60 + m + s/60 minutes. *)
Theorem parse_duration_hms_round_trip (E : env) (h m s : nat) :
  (Z.of_nat (3600 * h + 60 * m + s) < 86400000000000)%Z ->
  exists dur,
    parse_duration E (iso_hms h m s) = Ok dur
    /\ (dur == inject_Z (Z.of_nat h) * 60 + inject_Z (Z.of_nat m)
               + inject_Z (Z.of_nat s) / 60)%Q.
Proof.
  intros Hrange.
  destruct (parse_duration_iso_hms E h m s Hrange) as (dur & Hparse & Hdur).
  exists dur. split; [exact Hparse |]. rewrite Hdur.
  rewrite !Nat2Z.inj_add, !Nat2Z.inj_mul.
  unfold Qeq, Qdiv, Qmult, Qplus, Qinv, inject_Z. simpl. lia.
Qed.

(** The theorem at work: 1:02:03 is 62.05 minutes long. *)
Lemma parse_duration_hms_round_trip_witness :
  exists dur,
    parse_duration failing_env (iso_hms 1 2 3) = Ok dur /\ (dur == 62.05)%Q.
Proof.
  destruct (parse_duration_hms_round_trip failing_env 1 2 3)
    as (dur & Hparse & Hdur); [reflexivity |].
  exists dur. split; [exact Hparse |]. rewrite Hdur. reflexivity.
Defined.
